(** * IceMelt.c: the snow / lake-ice melt step of the VIC lake model

    A shallow embedding of [ice_melt] and of its fatal diagnostic path
    ([ErrorIcePackEnergyBalance], [ErrorPrintIcePackEnergyBalance]).

    Numbers.  A C [double] is modelled by an exact rational ([Q]); the
    development therefore speaks about the arithmetic the code intends,
    without rounding, infinities or NaN.  The [int] time step is a [Z] that
    is converted with [inject_Z] where the code casts it to [double].
    Two consequences.  A sum of doubles can round across one of the strict
    tests of the code where the rational sum does not: the case analyses
    below are about the exact comparison, and a concrete call that meets a
    test with equality is given in binary fractions, which doubles hold
    exactly.  And division by zero is zero in [Q]: the two divisions by the
    vapor flux (lines 249 and 363) are shown to have a non-zero divisor on
    valid input.

    External code.  [icerad], [IceEnergyBalance] and [root_brent] live in
    other files of the model; they are section variables here, so every
    theorem holds for all of them.  The same is true of the physical
    constants of [vicNl_def.h], gathered in [vic_consts]. *)

From Stdlib Require Import QArith Qabs Lqa ZArith Lia List String Bool.
Import ListNotations.
Local Open Scope Q_scope.

(** ** Comparisons of the C source

    The relational operators of C on doubles, as boolean functions on [Q]. *)

Definition Qltb (x y : Q) : bool := negb (Qle_bool y x).
Definition Qgtb (x y : Q) : bool := Qltb y x.
Definition Qgeb (x y : Q) : bool := Qle_bool y x.

Declare Scope cmp_scope.
Delimit Scope cmp_scope with cmp.
Notation "x <? y" := (Qltb x y) (at level 70, no associativity) : cmp_scope.
Notation "x >? y" := (Qgtb x y) (at level 70, no associativity) : cmp_scope.
Notation "x <=? y" := (Qle_bool x y) (at level 70, no associativity) : cmp_scope.
Notation "x >=? y" := (Qgeb x y) (at level 70, no associativity) : cmp_scope.
Notation "x ==? y" := (Qeq_bool x y) (at level 70, no associativity) : cmp_scope.
Local Open Scope cmp_scope.

(** ** Constants of vicNl_def.h *)

Record vic_consts : Type := mkConsts {
  RHOICE : Q;                 (* density of ice (kg/m3) *)
  RHO_W : Q;                  (* density of water (kg/m3) *)
  RHOSNOW : Q;                (* density of snow on lake ice (kg/m3) *)
  Lf : Q;                     (* latent heat of fusion (J/kg) *)
  SECPHOUR : Q;               (* seconds per hour *)
  LIQUID_WATER_CAPACITY : Q;  (* water holding capacity of the pack *)
  SNOW_DT : Q                 (* decrement of the first guess of root_brent *)
}.

(** ** Data model *)

(** The fields of [snow_data_struct] that IceMelt.c names. *)
Record snow_data_struct : Type := mkSnow {
  swq : Q;
  surf_water : Q;
  surf_temp : Q;
  pack_water : Q;
  pack_temp : Q;
  vapor_flux : Q;
  blowing_flux : Q;
  surface_flux : Q;
  melt_energy : Q;
  mass_error : Q
}.

(** The fields of [lake_var_struct] that IceMelt.c names; [surface] is the
    array of areas, of which the step reads element 0. *)
Record lake_var_struct : Type := mkLake {
  hice : Q;
  fraci : Q;
  volume : Q;
  surface : list Q
}.

Definition surface0 (l : lake_var_struct) : Q := nth 0 (surface l) 0.

(** The scalar arguments of [ice_melt]. *)
Record forcing : Type := mkForcing {
  z2 : Q;
  aero_resist : Q;
  Le : Q;
  delta_t : Z;
  displacement : Q;
  Z0 : Q;
  surf_atten : Q;
  rainfall : Q;
  snowfall : Q;
  wind : Q;
  Tcutoff : Q;
  air_temp : Q;
  net_short : Q;
  longwave : Q;
  density : Q;
  pressure : Q;
  vpd : Q;
  vp : Q;
  fracprv : Q
}.

(** The cells that the energy balance writes through pointers: the locals
    [RefreezeEnergy], [vapor_flux], [blowing_flux], [surface_flux],
    [advection], [SnowFlux], [latent_heat], [sensible_heat], [LWnet]. *)
Record eb_cells : Type := mkCells {
  c_RefreezeEnergy : Q;
  c_vapor_flux : Q;
  c_blowing_flux : Q;
  c_surface_flux : Q;
  c_AdvectedEnergy : Q;
  c_GroundFlux : Q;
  c_LatentHeat : Q;
  c_SensibleHeat : Q;
  c_LWnet : Q
}.

(** The variable argument list after [TSurf], in the order in which
    [ErrorPrintIcePackEnergyBalance] reads it.  A pointer argument whose
    cell holds a value at the call contributes that value ([a_vapor_flux],
    [a_blowing_flux], [a_surface_flux]); the other cells are outputs only. *)
Record eb_args : Type := mkArgs {
  a_Dt : Q;
  a_Ra : Q;
  a_Z : Q;
  a_Displacement : Q;
  a_Z0 : Q;
  a_Wind : Q;
  a_ShortRad : Q;
  a_LongRadIn : Q;
  a_AirDens : Q;
  a_Lv : Q;
  a_Tair : Q;
  a_Press : Q;
  a_Vpd : Q;
  a_EactAir : Q;
  a_Rain : Q;
  a_SweSurfaceLayer : Q;
  a_SurfaceLiquidWater : Q;
  a_OldTSurf : Q;
  a_vapor_flux : Q;
  a_blowing_flux : Q;
  a_surface_flux : Q;
  a_DeltaColdContent : Q;
  a_Tfreeze : Q;
  a_AvgCond : Q;
  a_SWconducted : Q;
  a_SnowDepth : Q;
  a_SnowDensity : Q;
  a_SurfAttenuation : Q
}.

(** What [root_brent] leaves behind: the value it returns, the message it
    wrote to [ErrorString], and the cells as its last evaluation of the
    residual function left them. *)
Record brent_result : Type := mkBrent {
  root : Q;
  ErrorString : string;
  brent_cells : eb_cells
}.

(** One item written to stderr by the diagnostic path. *)
Inductive stderr_item : Type :=
| Text (s : string)
| NameValue (name : string) (value : Q).

(** The calls that leave the file, in the order of execution. *)
Inductive call : Type :=
| call_icerad
| call_CalcIcePackEnergyBalance (Tsurf : Q)
| call_root_brent (guess upper : Q)
| call_ErrorIcePackEnergyBalance (Tsurf : Q).

(** What the caller holds when [ice_melt] returns. *)
Record ice_melt_result : Type := mkResult {
  r_snow : snow_data_struct;
  r_lake : lake_var_struct;
  melt : Q;
  save_advection : Q;
  save_deltaCC : Q;
  save_SnowFlux : Q;
  save_latent : Q;
  save_sensible : Q;
  save_Qnet : Q;
  save_refreeze_energy : Q;
  save_LWnet : Q
}.

(** A call either returns, or ends the process in [exit] after the dump. *)
Inductive outcome : Type :=
| Returned (r : ice_melt_result)
| Exited (stderr : list stderr_item).

(** The local variables that the two branches and the final accounting
    share, together with the two structures the step mutates in place. *)
Record frame : Type := mkFrame {
  snow : snow_data_struct;
  lake : lake_var_struct;
  SnowIce : Q;
  LakeIce : Q;
  SnowMelt : Q;
  IceMelt : Q;
  RefrozenWater : Q;
  RefreezeEnergy : Q;
  loc_melt_energy : Q     (* the local [melt_energy] *)
}.

(** *** Field updates *)

Definition set_swq (v : Q) (s : snow_data_struct) : snow_data_struct :=
  mkSnow v (surf_water s) (surf_temp s) (pack_water s) (pack_temp s)
         (vapor_flux s) (blowing_flux s) (surface_flux s) (melt_energy s)
         (mass_error s).
Definition set_surf_water (v : Q) (s : snow_data_struct) : snow_data_struct :=
  mkSnow (swq s) v (surf_temp s) (pack_water s) (pack_temp s)
         (vapor_flux s) (blowing_flux s) (surface_flux s) (melt_energy s)
         (mass_error s).
Definition set_surf_temp (v : Q) (s : snow_data_struct) : snow_data_struct :=
  mkSnow (swq s) (surf_water s) v (pack_water s) (pack_temp s)
         (vapor_flux s) (blowing_flux s) (surface_flux s) (melt_energy s)
         (mass_error s).
Definition set_vapor_flux (v : Q) (s : snow_data_struct) : snow_data_struct :=
  mkSnow (swq s) (surf_water s) (surf_temp s) (pack_water s) (pack_temp s)
         v (blowing_flux s) (surface_flux s) (melt_energy s) (mass_error s).
Definition set_blowing_flux (v : Q) (s : snow_data_struct) : snow_data_struct :=
  mkSnow (swq s) (surf_water s) (surf_temp s) (pack_water s) (pack_temp s)
         (vapor_flux s) v (surface_flux s) (melt_energy s) (mass_error s).
Definition set_surface_flux (v : Q) (s : snow_data_struct) : snow_data_struct :=
  mkSnow (swq s) (surf_water s) (surf_temp s) (pack_water s) (pack_temp s)
         (vapor_flux s) (blowing_flux s) v (melt_energy s) (mass_error s).
Definition set_mass_error (v : Q) (s : snow_data_struct) : snow_data_struct :=
  mkSnow (swq s) (surf_water s) (surf_temp s) (pack_water s) (pack_temp s)
         (vapor_flux s) (blowing_flux s) (surface_flux s) (melt_energy s) v.

Definition set_hice (v : Q) (l : lake_var_struct) : lake_var_struct :=
  mkLake v (fraci l) (volume l) (surface l).
Definition set_fraci (v : Q) (l : lake_var_struct) : lake_var_struct :=
  mkLake (hice l) v (volume l) (surface l).
Definition set_volume (v : Q) (l : lake_var_struct) : lake_var_struct :=
  mkLake (hice l) (fraci l) v (surface l).

Definition with_snow (s : snow_data_struct) (w : frame) : frame :=
  mkFrame s (lake w) (SnowIce w) (LakeIce w) (SnowMelt w) (IceMelt w)
          (RefrozenWater w) (RefreezeEnergy w) (loc_melt_energy w).
Definition with_lake (l : lake_var_struct) (w : frame) : frame :=
  mkFrame (snow w) l (SnowIce w) (LakeIce w) (SnowMelt w) (IceMelt w)
          (RefrozenWater w) (RefreezeEnergy w) (loc_melt_energy w).
Definition with_SnowIce (v : Q) (w : frame) : frame :=
  mkFrame (snow w) (lake w) v (LakeIce w) (SnowMelt w) (IceMelt w)
          (RefrozenWater w) (RefreezeEnergy w) (loc_melt_energy w).
Definition with_LakeIce (v : Q) (w : frame) : frame :=
  mkFrame (snow w) (lake w) (SnowIce w) v (SnowMelt w) (IceMelt w)
          (RefrozenWater w) (RefreezeEnergy w) (loc_melt_energy w).
Definition with_SnowMelt (v : Q) (w : frame) : frame :=
  mkFrame (snow w) (lake w) (SnowIce w) (LakeIce w) v (IceMelt w)
          (RefrozenWater w) (RefreezeEnergy w) (loc_melt_energy w).
Definition with_IceMelt (v : Q) (w : frame) : frame :=
  mkFrame (snow w) (lake w) (SnowIce w) (LakeIce w) (SnowMelt w) v
          (RefrozenWater w) (RefreezeEnergy w) (loc_melt_energy w).
Definition with_RefrozenWater (v : Q) (w : frame) : frame :=
  mkFrame (snow w) (lake w) (SnowIce w) (LakeIce w) (SnowMelt w) (IceMelt w)
          v (RefreezeEnergy w) (loc_melt_energy w).
Definition with_RefreezeEnergy (v : Q) (w : frame) : frame :=
  mkFrame (snow w) (lake w) (SnowIce w) (LakeIce w) (SnowMelt w) (IceMelt w)
          (RefrozenWater w) v (loc_melt_energy w).
Definition with_melt_energy (v : Q) (w : frame) : frame :=
  mkFrame (snow w) (lake w) (SnowIce w) (LakeIce w) (SnowMelt w) (IceMelt w)
          (RefrozenWater w) (RefreezeEnergy w) v.

(** An assignment through a pointer into one of the two structures. *)
Definition upd_snow (f : snow_data_struct -> snow_data_struct) (w : frame) : frame :=
  with_snow (f (snow w)) w.
Definition upd_lake (f : lake_var_struct -> lake_var_struct) (w : frame) : frame :=
  with_lake (f (lake w)) w.

(** ** The step *)

Section IceMelt.

Variable K : vic_consts.

(** [icerad (sw, hi, hs)] returns [(avgcond, SWconducted, deltaCC)]. *)
Variable icerad : Q -> Q -> Q -> Q * Q * Q.

(** [IceEnergyBalance TSurf args] returns the net energy and the cells. *)
Variable IceEnergyBalance : Q -> eb_args -> Q * eb_cells.

(** [root_brent LowerBound UpperBound Function args]. *)
Variable root_brent :
  Q -> Q -> (Q -> eb_args -> Q * eb_cells) -> eb_args -> brent_result.

(** [CalcIcePackEnergyBalance] only forwards its argument list. *)
Definition CalcIcePackEnergyBalance (Tsurf : Q) (a : eb_args) : Q * eb_cells :=
  IceEnergyBalance Tsurf a.

(** [ErrorPrintIcePackEnergyBalance]: everything written to stderr before
    [exit(0)].  [TSurf] is received and not printed. *)
Definition ErrorPrintIcePackEnergyBalance
    (TSurf : Q) (a : eb_args) (c : eb_cells) (msg : string) : list stderr_item :=
  [ Text msg;
    Text "ERROR: ice_melt failed to converge to a solution in root_brent.  Variable values will be dumped to the screen, check for invalid values.";
    NameValue "Dt" (a_Dt a);
    NameValue "Ra" (a_Ra a);
    NameValue "Z" (a_Z a);
    NameValue "Displacement" (a_Displacement a);
    NameValue "Z0" (a_Z0 a);
    NameValue "Wind" (a_Wind a);
    NameValue "ShortRad" (a_ShortRad a);
    NameValue "LongRadIn" (a_LongRadIn a);
    NameValue "AirDens" (a_AirDens a);
    NameValue "Lv" (a_Lv a);
    NameValue "Tair" (a_Tair a);
    NameValue "Press" (a_Press a);
    NameValue "Vpd" (a_Vpd a);
    NameValue "EactAir" (a_EactAir a);
    NameValue "Rain" (a_Rain a);
    NameValue "SweSurfaceLayer" (a_SweSurfaceLayer a);
    NameValue "SurfaceLiquidWater" (a_SurfaceLiquidWater a);
    NameValue "OldTSurf" (a_OldTSurf a);
    NameValue "RefreezeEnergy" (c_RefreezeEnergy c);
    NameValue "vapor_flux" (c_vapor_flux c);
    NameValue "blowing_flux" (c_blowing_flux c);
    NameValue "surface_flux" (c_surface_flux c);
    NameValue "AdvectedEnergy" (c_AdvectedEnergy c);
    NameValue "DeltaColdContent" (a_DeltaColdContent a);
    NameValue "Tfreeze" (a_Tfreeze a);
    NameValue "AvgCond" (a_AvgCond a);
    NameValue "SWconducted" (a_SWconducted a);
    NameValue "SnowDepth" (a_SnowDepth a);
    NameValue "SnowDensity" (a_SnowDensity a);
    NameValue "SurfAttenuation" (a_SurfAttenuation a);
    NameValue "GroundFlux" (c_GroundFlux c);
    NameValue "LatentHeat" (c_LatentHeat c);
    NameValue "SensibleHeat" (c_SensibleHeat c);
    NameValue "LWnet" (c_LWnet c);
    Text "Finished dumping snow_melt variables.";
    Text "Try increasing SNOW_DT to get model to complete cell.";
    Text "Then check output for instabilities." ].

Definition ErrorIcePackEnergyBalance
    (Tsurf : Q) (a : eb_args) (c : eb_cells) (msg : string) : list stderr_item :=
  ErrorPrintIcePackEnergyBalance Tsurf a c msg.

(** The argument list that the three call sites of [ice_melt] build; [vf],
    [bf], [sf] are the contents of the locals [vapor_flux], [blowing_flux]
    and [surface_flux] at the call. *)
Definition energy_args (f : forcing) (s : snow_data_struct)
    (RainFall LakeIce0 OldTSurf deltaCC avgcond SWconducted vf bf sf : Q) : eb_args :=
  mkArgs (inject_Z (delta_t f)) (aero_resist f) (z2 f) (displacement f) (Z0 f)
         (wind f) (net_short f) (longwave f) (density f) (Le f) (air_temp f)
         (pressure f * 1000) (vpd f * 1000) (vp f * 1000)
         RainFall (swq s + LakeIce0) (surf_water s) OldTSurf
         vf bf sf
         deltaCC (Tcutoff f) avgcond SWconducted
         (swq s * RHO_W K / RHOSNOW K) (RHOSNOW K) (surf_atten f).

(** *** Isothermal branch, lines 220-241: refreeze or melt *)
Definition refreeze_or_melt (dt : Z) (w : frame) : frame :=
  if RefreezeEnergy w >=? 0 then
    let w := with_RefrozenWater
               (RefreezeEnergy w / (Lf K * RHO_W K) * inject_Z dt * SECPHOUR K) w in
    let w :=
      if RefrozenWater w >? surf_water (snow w) then
        let w := with_RefrozenWater (surf_water (snow w)) w in
        with_RefreezeEnergy
          (RefrozenWater w * Lf K * RHO_W K / (inject_Z dt * SECPHOUR K)) w
      else w in
    let w := with_melt_energy (loc_melt_energy w + RefreezeEnergy w) w in
    let w := upd_snow (set_swq (swq (snow w) + RefrozenWater w)) w in
    let w := with_SnowIce (SnowIce w + RefrozenWater w) w in
    let w := upd_snow (set_surf_water (surf_water (snow w) - RefrozenWater w)) w in
    with_SnowMelt 0 w
  else
    let w := with_SnowMelt
               (Qabs (RefreezeEnergy w) / (Lf K * RHO_W K) * inject_Z dt * SECPHOUR K) w in
    with_melt_energy (loc_melt_energy w + RefreezeEnergy w) w.

(** *** Isothermal branch, lines 244-269: vapor flux against three reservoirs *)
Definition vapor_adjust_isothermal (fracprv0 : Q) (w : frame) : frame :=
  if (SnowIce w + surf_water (snow w) + LakeIce w) <? - vapor_flux (snow w) then
    let w := upd_snow (set_blowing_flux
               (blowing_flux (snow w) *
                ((- (SnowIce w + surf_water (snow w) + LakeIce w)) / vapor_flux (snow w)))) w in
    let w := upd_snow (set_vapor_flux
               (- (SnowIce w + surf_water (snow w) + LakeIce w))) w in
    let w := upd_snow (set_surface_flux
               (- (SnowIce w + surf_water (snow w) + LakeIce w) - blowing_flux (snow w))) w in
    let w := upd_lake (set_volume
               (volume (lake w) - LakeIce w * fracprv0 * surface0 (lake w))) w in
    let w := with_LakeIce 0 w in
    with_SnowIce 0 w
  else if ((SnowIce w + surf_water (snow w)) <? - vapor_flux (snow w))
          && ((SnowIce w + surf_water (snow w) + LakeIce w) >? - vapor_flux (snow w)) then
    let w := with_LakeIce (LakeIce w + (vapor_flux (snow w) + SnowIce w)) w in
    let w := upd_lake (set_volume
               (volume (lake w)
                + surface0 (lake w) * fracprv0 * (vapor_flux (snow w) + SnowIce w))) w in
    with_SnowIce 0 w
  else
    if - vapor_flux (snow w) >? surf_water (snow w) then
      let w := with_SnowIce (SnowIce w + (vapor_flux (snow w) + surf_water (snow w))) w in
      upd_snow (set_surf_water 0) w
    else
      upd_snow (set_surf_water (surf_water (snow w) + vapor_flux (snow w))) w.

(** *** Isothermal branch, lines 271-291: melt against snow, then lake ice *)
Definition melt_partition (w : frame) : frame :=
  if SnowMelt w <? SnowIce w then
    let w := upd_snow (set_surf_water (surf_water (snow w) + SnowMelt w)) w in
    with_SnowIce (SnowIce w - SnowMelt w) w
  else if (SnowMelt w >=? SnowIce w) && (SnowMelt w <? SnowIce w + LakeIce w) then
    let w := upd_snow (set_surf_water (surf_water (snow w) + SnowIce w)) w in
    let w := with_LakeIce (LakeIce w - (SnowMelt w - SnowIce w)) w in
    let w := with_IceMelt (SnowMelt w - SnowIce w) w in
    with_SnowIce 0 w
  else
    let w := with_SnowMelt (SnowIce w + LakeIce w) w in
    let w := upd_snow (set_surf_water (surf_water (snow w) + SnowIce w)) w in
    let w := with_IceMelt (LakeIce w) w in
    let w := with_SnowIce 0 w in
    with_LakeIce 0 w.

(** The body of [if (Qnet == 0.0)], lines 219-291. *)
Definition isothermal_branch (f : forcing) (w : frame) : frame :=
  let w := upd_snow (set_surf_temp 0) w in
  let w := refreeze_or_melt (delta_t f) w in
  let w := vapor_adjust_isothermal (fracprv f) w in
  melt_partition w.

(** *** Subfreezing branch, lines 345-356: the surface layer freezes *)
Definition freeze_surface_water (dt : Z) (w : frame) : frame :=
  let w := with_SnowMelt 0 w in
  let w := with_SnowIce (SnowIce w + surf_water (snow w)) w in
  let w := with_melt_energy
             (loc_melt_energy w
              + surf_water (snow w) * Lf K * RHO_W K / (inject_Z dt * SECPHOUR K)) w in
  let w := with_RefrozenWater (surf_water (snow w)) w in
  upd_snow (set_surf_water 0) w.

(** *** Subfreezing branch, lines 358-380: vapor flux against two reservoirs *)
Definition vapor_adjust_subfreezing (fracprv0 : Q) (w : frame) : frame :=
  if (SnowIce w + LakeIce w) <? - vapor_flux (snow w) then
    let w := upd_snow (set_blowing_flux
               (blowing_flux (snow w) *
                ((- (SnowIce w + LakeIce w)) / vapor_flux (snow w)))) w in
    let w := upd_snow (set_vapor_flux (- (SnowIce w + LakeIce w))) w in
    let w := upd_snow (set_surface_flux
               (- (SnowIce w + LakeIce w) - blowing_flux (snow w))) w in
    let w := upd_lake (set_volume
               (volume (lake w) - surface0 (lake w) * fracprv0 * LakeIce w)) w in
    let w := with_LakeIce 0 w in
    with_SnowIce 0 w
  else if (SnowIce w <? - vapor_flux (snow w))
          && ((SnowIce w + LakeIce w) >? - vapor_flux (snow w)) then
    let w := with_LakeIce (LakeIce w + (vapor_flux (snow w) + SnowIce w)) w in
    let w := upd_lake (set_volume
               (volume (lake w)
                + surface0 (lake w) * fracprv0 * (vapor_flux (snow w) + SnowIce w))) w in
    with_SnowIce 0 w
  else
    if SnowIce w >? 0 then
      with_SnowIce (SnowIce w + vapor_flux (snow w)) w
    else
      upd_lake (set_volume
        (volume (lake w) + surface0 (lake w) * fracprv0 * vapor_flux (snow w))) w.

(** *** Lines 384-437: liquid water cap, new state, mass balance, outputs *)
Definition finish (w : frame)
    (InitialSwq InitialIce RainFall SnowFall Qnet deltaCC : Q) (c : eb_cells)
    (refreeze_out : Q) : ice_melt_result :=
  let MaxLiquidWater := LIQUID_WATER_CAPACITY K * SnowIce w in
  let '(melt0, w) :=
    if surf_water (snow w) >? MaxLiquidWater then
      (surf_water (snow w) - MaxLiquidWater,
       upd_snow (set_surf_water MaxLiquidWater) w)
    else (0, w) in
  let w := upd_snow (set_swq (SnowIce w + surf_water (snow w))) w in
  let w := upd_lake (set_hice (LakeIce w * RHO_W K / RHOICE K)) w in
  let w :=
    if hice (lake w) <=? 0 then
      let w := upd_lake (set_hice 0) w in
      upd_lake (set_fraci 0) w
    else w in
  let MassBalanceError :=
    (InitialSwq - swq (snow w)) + (InitialIce - LakeIce w) + (RainFall + SnowFall)
    - IceMelt w - melt0 + vapor_flux (snow w) in
  let melt1 := melt0 * 1000 in
  let w := upd_snow (set_mass_error MassBalanceError) w in
  let w := upd_snow (set_vapor_flux (vapor_flux (snow w) * -1)) w in
  mkResult (snow w) (lake w) melt1
           (c_AdvectedEnergy c) deltaCC (c_GroundFlux c) (c_LatentHeat c)
           (c_SensibleHeat c) Qnet refreeze_out (c_LWnet c).

(** The locals that are set before the branch and only read after it,
    with the outputs of the energy balance at 0 C. *)
Record entry : Type := mkEntry {
  SnowFall : Q;
  RainFall : Q;
  InitialSwq : Q;
  InitialIce : Q;
  OldTSurf : Q;
  avgcond : Q;
  SWconducted : Q;
  deltaCC : Q;
  Qnet0 : Q;              (* [Qnet] of line 201 *)
  cells0 : eb_cells;      (* the cells after line 201 *)
  frame0 : frame          (* the shared locals and structures at line 217 *)
}.

(** *** [ice_melt], lines 168-215: up to the branch *)
Definition entry_state
    (f : forcing) (snow0 : snow_data_struct) (lake0 : lake_var_struct) : entry :=
  let SnowFall := snowfall f / 1000 in
  let RainFall := rainfall f / 1000 in
  let InitialSwq := swq snow0 in
  let OldTSurf := surf_temp snow0 in
  let SnowIce0 := swq snow0 - surf_water snow0 in
  let LakeIce0 := hice lake0 * RHOICE K / RHO_W K in
  let InitialIce := LakeIce0 in
  let SnowIce0 := SnowIce0 + SnowFall in
  let s := set_surf_water (surf_water snow0 + RainFall) snow0 in
  let '(avgcond, SWconducted, deltaCC) :=
    icerad (net_short f) (hice lake0) (SnowIce0 * RHO_W K / RHOSNOW K) in
  let s := set_blowing_flux 0 s in
  let '(Qnet, c) :=
    CalcIcePackEnergyBalance 0
      (energy_args f s RainFall LakeIce0 OldTSurf deltaCC avgcond SWconducted
                   (vapor_flux s) (blowing_flux s) (surface_flux s)) in
  let s := set_vapor_flux (c_vapor_flux c) s in
  let s := set_surface_flux (c_surface_flux c) s in
  mkEntry SnowFall RainFall InitialSwq InitialIce OldTSurf
          avgcond SWconducted deltaCC Qnet c
          (mkFrame s lake0 SnowIce0 LakeIce0 0 0 0 (c_RefreezeEnergy c) 0).

(** The argument list of the calls of the subfreezing branch; [c] holds the
    cells at the call. *)
Definition branch_args (f : forcing) (e : entry) (c : eb_cells) : eb_args :=
  energy_args f (snow (frame0 e)) (RainFall e) (LakeIce (frame0 e)) (OldTSurf e)
              (deltaCC e) (avgcond e) (SWconducted e)
              (c_vapor_flux c) (c_blowing_flux c) (c_surface_flux c).

(** *** Line 298: the call of [root_brent] *)
Definition solver_guess (e : entry) : Q :=
  surf_temp (snow (frame0 e)) - SNOW_DT K.

Definition solver_call (f : forcing) (e : entry) : brent_result :=
  root_brent (solver_guess e) 0 IceEnergyBalance (branch_args f e (cells0 e)).

(** *** Lines 328-380: the subfreezing branch once the solver has returned *)
Definition solved_energy (f : forcing) (e : entry) : Q * eb_cells :=
  let b := solver_call f e in
  CalcIcePackEnergyBalance (root b) (branch_args f e (brent_cells b)).

(** The locals and structures at line 345. *)
Definition solved_frame (f : forcing) (e : entry) : frame :=
  let c := snd (solved_energy f e) in
  let w := upd_snow (set_surf_temp (root (solver_call f e))) (frame0 e) in
  let w := upd_snow (set_vapor_flux (c_vapor_flux c)) w in
  let w := upd_snow (set_surface_flux (c_surface_flux c)) w in
  with_RefreezeEnergy (c_RefreezeEnergy c) w.

Definition subfreezing_branch (f : forcing) (e : entry) : frame :=
  let w := freeze_surface_water (delta_t f) (solved_frame f e) in
  vapor_adjust_subfreezing (fracprv f) w.

(** One execution: the calls made, the locals as the chosen branch left
    them (line 382) when the call gets that far, and how the call ended. *)
Record run : Type := mkRun {
  calls : list call;
  branch_frame : option frame;
  result : outcome
}.

Definition returned (e : entry) (w : frame) (Qnet : Q) (c : eb_cells) : outcome :=
  Returned (finish w (InitialSwq e) (InitialIce e) (RainFall e) (SnowFall e)
                   Qnet (deltaCC e) c (c_RefreezeEnergy c)).

(** *** [ice_melt], lines 100-439 *)
Definition ice_melt_run
    (f : forcing) (snow0 : snow_data_struct) (lake0 : lake_var_struct) : run :=
  let e := entry_state f snow0 lake0 in
  if Qnet0 e ==? 0 then
    let w := isothermal_branch f (frame0 e) in
    mkRun [call_icerad; call_CalcIcePackEnergyBalance 0]
          (Some w)
          (returned e w (Qnet0 e) (cells0 e))
  else
    let b := solver_call f e in
    if root b <=? -9998 then
      mkRun [call_icerad; call_CalcIcePackEnergyBalance 0;
             call_root_brent (solver_guess e) 0;
             call_ErrorIcePackEnergyBalance (root b)]
            None
            (Exited (ErrorIcePackEnergyBalance (root b)
                       (branch_args f e (brent_cells b)) (brent_cells b)
                       (ErrorString b)))
    else
      let w := subfreezing_branch f e in
      mkRun [call_icerad; call_CalcIcePackEnergyBalance 0;
             call_root_brent (solver_guess e) 0;
             call_CalcIcePackEnergyBalance (root b)]
            (Some w)
            (returned e w (fst (solved_energy f e)) (snd (solved_energy f e))).

Definition ice_melt
    (f : forcing) (snow0 : snow_data_struct) (lake0 : lake_var_struct) : outcome :=
  result (ice_melt_run f snow0 lake0).

(** Whether an execution called [root_brent], and whether it entered the
    diagnostic path. *)
Definition is_root_brent (c : call) : bool :=
  match c with call_root_brent _ _ => true | _ => false end.
Definition is_error_path (c : call) : bool :=
  match c with call_ErrorIcePackEnergyBalance _ => true | _ => false end.
(** *** Bookkeeping of water

    The water a frame holds in its three reservoirs. *)
Definition store (w : frame) : Q :=
  SnowIce w + surf_water (snow w) + LakeIce w.

(** Surface liquid that the clamp of lines 245-255 counts as sublimated and
    leaves in place. *)
Definition double_counted_liquid (w : frame) : Q :=
  if (SnowIce w + surf_water (snow w) + LakeIce w) <? - vapor_flux (snow w)
  then surf_water (snow w) else 0.

(** Vapor flux that lines 378-379 move to the lake volume. *)
Definition uncounted_flux (w : frame) : Q :=
  if (SnowIce w + LakeIce w) <? - vapor_flux (snow w) then 0
  else if (SnowIce w <? - vapor_flux (snow w))
          && ((SnowIce w + LakeIce w) >? - vapor_flux (snow w)) then 0
  else if SnowIce w >? 0 then 0
  else vapor_flux (snow w).

(** *** Preconditions of the step *)

Definition valid_consts (K : vic_consts) : Prop :=
  0 < RHOICE K /\ 0 < RHO_W K /\ 0 < Lf K /\ 0 < SECPHOUR K /\
  0 <= LIQUID_WATER_CAPACITY K.

Definition valid_input (f : forcing) (s : snow_data_struct)
    (l : lake_var_struct) : Prop :=
  (0 < delta_t f)%Z /\ 0 <= rainfall f /\ 0 <= snowfall f /\
  0 <= surf_water s /\ surf_water s <= swq s /\ 0 <= hice l.

(** The vapor flux takes exactly what the reservoirs hold, and more than
    snow ice and surface liquid hold: the case that neither strict test of
    lines 245/256 and 359/370 catches. *)
Definition flux_equals_store (w : frame) : Prop :=
  store w == - vapor_flux (snow w) /\
  SnowIce w + surf_water (snow w) < - vapor_flux (snow w).

(** The fields that a frame shares with the structures [s] and [l] when the
    step has left them alone: of the snow structure [pack_water],
    [pack_temp] and [melt_energy], of the lake structure the areas. *)
Definition untouched (s : snow_data_struct) (l : lake_var_struct)
    (s' : snow_data_struct) (l' : lake_var_struct) : Prop :=
  pack_water s' = pack_water s /\
  pack_temp s' = pack_temp s /\
  melt_energy s' = melt_energy s /\
  surface l' = surface l.

Definition is_name_value (i : stderr_item) : bool :=
  match i with NameValue _ _ => true | Text _ => false end.
Definition solver_invoked (r : run) : bool := existsb is_root_brent (calls r).
Definition error_path_invoked (r : run) : bool := existsb is_error_path (calls r).

End IceMelt.

(** * initialize_global.c: defaults of the global structures

    [initialize_global] resets the three global structures [options],
    [debug] and [param_set]; [initialize_filenames] resets [filenames].
    The structures are declared in headers that are not at hand: each
    record holds the fields that the functions name, and the constants of
    the headers are gathered in [header]. *)

Record header : Type := mkHeader {
  TRUE : Z;
  FALSE : Z;
  MISSING : Z;
  AR_406_FULL : Z;
  GF_FULL : Z;
  USACE : Z;
  DENS_BRAS : Z;
  ARNO : Z;
  N_FORCING_TYPES : nat;    (* number of forcing variable types *)
  LINK_DEBUG : bool         (* whether the debugging code is compiled in *)
}.

Record option_struct : Type := mkOptions {
  AboveTreelineVeg : Z;
  AERO_RESIST_CANSNOW : Z;
  BLOWING : Z;
  COMPUTE_TREELINE : Z;
  CORRPREC : Z;
  DIST_PRCP : Z;
  EQUAL_AREA : Z;
  EXP_TRANS : Z;
  FROZEN_SOIL : Z;
  FULL_ENERGY : Z;
  GRND_FLUX : Z;
  GRND_FLUX_TYPE : Z;
  IMPLICIT : Z;
  JULY_TAVG_SUPPLIED : Z;
  LAKES : Z;
  LAKE_PROFILE : Z;
  MIN_LIQ : Z;
  MIN_WIND_SPEED : Q;
  Nlayer : Z;
  Nnode : Z;
  NOFLUX : Z;
  PLAPSE : Z;
  PREC_EXPT : Q;
  QUICK_FLUX : Z;
  QUICK_SOLVE : Z;
  ROOT_ZONES : Z;
  SNOW_ALBEDO : Z;
  SNOW_BAND : Z;
  SNOW_DENSITY : Z;
  SNOW_STEP : Z;
  ARC_SOIL : Z;
  BASEFLOW : Z;
  GLOBAL_LAI : Z;
  GRID_DECIMAL : Z;
  BINARY_STATE_FILE : Z;
  INIT_STATE : Z;
  SAVE_STATE : Z;
  ALMA_OUTPUT : Z;
  BINARY_OUTPUT : Z;
  COMPRESS : Z;
  MOISTFRACT : Z;
  Noutfiles : Z;
  PRT_HEADER : Z;
  PRT_SNOW_BAND : Z
}.

Record debug_struct : Type := mkDebug {
  DEBUG : Z;
  PRT_SOIL : Z;
  PRT_VEGE : Z;
  PRT_GLOBAL : Z;
  PRT_ATMOS : Z;
  PRT_SNOW : Z;
  PRT_FLUX : Z;
  PRT_VAR : Z;
  PRT_TEMP : Z;
  PRT_MOIST : Z;
  PRT_LAKE : Z;
  PRT_KAPPA : Z;
  PRT_BALANCE : Z;
  PRT_GRID : Z;
  debug_dir : string
}.

Record force_type_struct : Type := mkForceType {
  SUPPLIED : Z;
  SIGNED : Z;
  multiplier : Q
}.

Record param_set_struct : Type := mkParamSet {
  TYPE : list force_type_struct;
  FORCE_DT : list Z;
  N_TYPES : list Z;
  FORCE_FORMAT : list Z;
  FORCE_INDEX : list (list Z)
}.

(** The three global structures that [initialize_global] declares extern. *)
Record globals : Type := mkGlobals {
  options : option_struct;
  debug : debug_struct;
  param_set : param_set_struct
}.

Record filenames_struct : Type := mkFilenames {
  init_state : string;
  statefile : string;
  constants : string;
  soil : string;
  veg : string;
  veglib : string;
  snowband : string;
  lakeparam : string;
  result_dir : string;
  f_path_pfx : list string
}.

(** *** Arrays and counting loops

    [array_upd j f a] is the assignment to (fields of) [a[j]].  A C array
    has the size of its declaration; an index outside the list, which C
    leaves undefined, changes nothing here. *)
Fixpoint array_upd {A : Type} (j : nat) (f : A -> A) (a : list A) {struct a}
    : list A :=
  match a with
  | [] => []
  | h :: t =>
      match j with
      | O => f h :: t
      | S k => h :: array_upd k f t
      end
  end.

Definition array_set {A : Type} (j : nat) (v : A) (a : list A) : list A :=
  array_upd j (fun _ => v) a.

(** [for (j = 0; j < n; j++) body]: the body at 0, 1, ..., n-1 in turn. *)
Fixpoint for_upto {St : Type} (n : nat) (body : nat -> St -> St) (st : St) : St :=
  match n with
  | O => st
  | S k => body k (for_upto k body st)
  end.

Definition set_SUPPLIED (v : Z) (t : force_type_struct) : force_type_struct :=
  mkForceType v (SIGNED t) (multiplier t).
Definition set_SIGNED (v : Z) (t : force_type_struct) : force_type_struct :=
  mkForceType (SUPPLIED t) v (multiplier t).
Definition set_multiplier (v : Q) (t : force_type_struct) : force_type_struct :=
  mkForceType (SUPPLIED t) (SIGNED t) v.

Definition set_TYPE (v : list force_type_struct) (p : param_set_struct) :=
  mkParamSet v (FORCE_DT p) (N_TYPES p) (FORCE_FORMAT p) (FORCE_INDEX p).
Definition set_FORCE_DT (v : list Z) (p : param_set_struct) :=
  mkParamSet (TYPE p) v (N_TYPES p) (FORCE_FORMAT p) (FORCE_INDEX p).
Definition set_N_TYPES (v : list Z) (p : param_set_struct) :=
  mkParamSet (TYPE p) (FORCE_DT p) v (FORCE_FORMAT p) (FORCE_INDEX p).
Definition set_FORCE_FORMAT (v : list Z) (p : param_set_struct) :=
  mkParamSet (TYPE p) (FORCE_DT p) (N_TYPES p) v (FORCE_INDEX p).
Definition set_FORCE_INDEX (v : list (list Z)) (p : param_set_struct) :=
  mkParamSet (TYPE p) (FORCE_DT p) (N_TYPES p) (FORCE_FORMAT p) v.

Section InitializeGlobal.

Variable H : header.

(** Lines 119-168: the model option flags. *)
Definition default_options : option_struct :=
  mkOptions (-1) (AR_406_FULL H) (FALSE H) (FALSE H) (FALSE H) (FALSE H)
            (FALSE H) (FALSE H) (FALSE H) (FALSE H) (FALSE H) (GF_FULL H)
            (FALSE H) (FALSE H) (FALSE H) (FALSE H) (FALSE H) 0 2 3
            (FALSE H) (FALSE H) (6 # 10) (TRUE H) (FALSE H) (MISSING H)
            (USACE H) 1 (DENS_BRAS H) 1
            (FALSE H) (ARNO H) (FALSE H) 2
            (TRUE H) (FALSE H) (FALSE H)
            (FALSE H) (FALSE H) (FALSE H) (FALSE H) 2 (FALSE H) (FALSE H).

(** Lines 170-190: the debugging flags, under [#if LINK_DEBUG]. *)
Definition default_debug : debug_struct :=
  mkDebug (FALSE H) (FALSE H) (FALSE H) (FALSE H) (FALSE H) (FALSE H)
          (FALSE H) (FALSE H) (FALSE H) (FALSE H) (FALSE H) (FALSE H)
          (FALSE H) (FALSE H) "./".

(** Lines 194-198: the loop over the forcing types. *)
Definition reset_types (p : param_set_struct) : param_set_struct :=
  for_upto (N_FORCING_TYPES H)
    (fun j p =>
       let p := set_TYPE (array_upd j (set_SUPPLIED (FALSE H)) (TYPE p)) p in
       let p := set_TYPE (array_upd j (set_SIGNED 1) (TYPE p)) p in
       set_TYPE (array_upd j (set_multiplier 1) (TYPE p)) p)
    p.

(** Lines 199-204: the loop over the two forcing files. *)
Definition reset_files (p : param_set_struct) : param_set_struct :=
  for_upto 2
    (fun i p =>
       let p := set_FORCE_DT (array_set i (MISSING H) (FORCE_DT p)) p in
       let p := set_N_TYPES (array_set i (MISSING H) (N_TYPES p)) p in
       let p := set_FORCE_FORMAT (array_set i (MISSING H) (FORCE_FORMAT p)) p in
       for_upto (N_FORCING_TYPES H)
         (fun j p =>
            set_FORCE_INDEX
              (array_upd i (array_set j (MISSING H)) (FORCE_INDEX p)) p)
         p)
    p.

Definition initialize_global (g : globals) : globals :=
  let o := default_options in
  let d := if LINK_DEBUG H then default_debug else debug g in
  let p := reset_types (param_set g) in
  let p := reset_files p in
  mkGlobals o d p.

(** What the arrays of [param_set] hold when they have the sizes that the
    loops assume: [N_FORCING_TYPES] forcing types, two forcing files. *)
Definition declared_shape (p : param_set_struct) : Prop :=
  List.length (TYPE p) = N_FORCING_TYPES H /\
  List.length (FORCE_DT p) = 2%nat /\
  List.length (N_TYPES p) = 2%nat /\
  List.length (FORCE_FORMAT p) = 2%nat /\
  List.length (FORCE_INDEX p) = 2%nat /\
  Forall (fun row => List.length row = N_FORCING_TYPES H) (FORCE_INDEX p).

End InitializeGlobal.

(** [initialize_filenames]: every [strcpy(..., "MISSING")], then the loop
    over the two forcing path prefixes. *)
Definition initialize_filenames (n : filenames_struct) : filenames_struct :=
  let pfx :=
    for_upto 2 (fun i a => array_set i "MISSING"%string a) (f_path_pfx n) in
  mkFilenames "MISSING" "MISSING" "MISSING" "MISSING" "MISSING" "MISSING"
              "MISSING" "MISSING" "MISSING" pfx.

(** The names of the values that a dump lists, in order. *)
Definition value_names (d : list stderr_item) : list string :=
  flat_map (fun i => match i with NameValue n _ => [n] | Text _ => [] end) d.

(** ** Concrete global structures for the examples

    Three forcing types keep the tables small; the other constants carry
    the values of the model's header. *)
Module GlobalScenario.

Definition sample_header : header :=
  mkHeader 1 0 (-99999) 3 2 0 0 0 3 false.

Definition stale_options : option_struct :=
  mkOptions 7 7 7 7 7 7 7 7 7 7 7 7 7 7 7 7 7 7 7 7 7 7 7 7 7 7 7 7 7 7 7 7 7 7
            7 7 7 7 7 7 7 7 7 7.

Definition stale_debug : debug_struct :=
  mkDebug 1 1 1 1 1 1 1 1 1 1 1 1 1 1 "/tmp".

(** A table in which the second forcing type was supplied by an earlier
    run, with the indices of two forcing files filled in. *)
Definition stale_param_set : param_set_struct :=
  mkParamSet [mkForceType 0 1 1; mkForceType 1 (-1) (1 # 10); mkForceType 0 1 1]
             [24; 1]%Z [3; 1]%Z [0; 1]%Z
             [[0; 1; 2]; [5; 4; 3]]%Z.

Definition stale_globals : globals :=
  mkGlobals stale_options stale_debug stale_param_set.

Definition fresh_globals : globals :=
  mkGlobals (default_options sample_header) stale_debug
            (mkParamSet [mkForceType 9 9 9; mkForceType 9 9 9; mkForceType 9 9 9]
                        [9; 9]%Z [9; 9]%Z [9; 9]%Z [[9; 9; 9]; [9; 9; 9]]%Z).

Definition stale_filenames : filenames_struct :=
  mkFilenames "a" "b" "c" "d" "e" "f" "g" "h" "i" ["forcing/a_"%string; "forcing/b_"%string].

End GlobalScenario.

(** ** Concrete instances for the examples

    The constants carry the values of the model's header; the external
    functions are the simplest ones that drive the step down a chosen path. *)
Module Scenario.

Definition consts : vic_consts :=
  mkConsts 917 1000 250 333700 3600 (35 # 1000) 5.

Definition icerad (sw hi hs : Q) : Q * Q * Q := (0, 0, 0).

(** An energy balance that reports net energy [q], refreeze energy [re] and
    vapor flux [vf] (all of it from the surface) at every temperature. *)
Definition energy (q re vf : Q) (TSurf : Q) (a : eb_args) : Q * eb_cells :=
  (q, mkCells re vf 0 vf 0 0 0 0 0).

(** A solver that returns [r] after one evaluation of the function at [r]. *)
Definition brent (r : Q) (lower upper : Q)
    (F : Q -> eb_args -> Q * eb_cells) (a : eb_args) : brent_result :=
  mkBrent r "" (snd (F r a)).

(** One-hour step, no precipitation, lake of area 10 fully covered before. *)
Definition calm : forcing :=
  mkForcing 2 1 2500000 1 0 (1 # 1000) 1 0 0 1 0 0 0 0 1 100 1 1 1.

Definition pack (swq0 surf_water0 : Q) : snow_data_struct :=
  mkSnow swq0 surf_water0 (-2) (3 # 1000) (-1) 0 0 0 7 0.

Definition lake_with_ice (hice0 : Q) : lake_var_struct :=
  mkLake hice0 1 100 [10].

Definition locals (s : snow_data_struct) (l : lake_var_struct)
    (SnowIce0 LakeIce0 SnowMelt0 : Q) : frame :=
  mkFrame s l SnowIce0 LakeIce0 SnowMelt0 0 0 0 0.

(** What a call returned; the prior structures when it did not return. *)
Definition the_result (s : snow_data_struct) (l : lake_var_struct)
    (o : outcome) : ice_melt_result :=
  match o with
  | Returned r => r
  | Exited _ => mkResult s l 0 0 0 0 0 0 0 0 0
  end.

End Scenario.

(** * Properties *)

(** ** The comparisons decide the order of [Q] *)

Lemma Qltb_true (x y : Q) : (x <? y) = true <-> x < y.
Proof.
  unfold Qltb. rewrite negb_true_iff, <- not_true_iff_false, Qle_bool_iff.
  split; intro H; [ apply Qnot_le_lt, H | apply Qlt_not_le, H ].
Qed.

Lemma Qltb_false (x y : Q) : (x <? y) = false <-> y <= x.
Proof.
  unfold Qltb. rewrite negb_false_iff. apply Qle_bool_iff.
Qed.

Lemma Qleb_false (x y : Q) : (x <=? y) = false <-> y < x.
Proof.
  rewrite <- not_true_iff_false, Qle_bool_iff.
  split; intro H; [ apply Qnot_le_lt, H | apply Qlt_not_le, H ].
Qed.

Lemma Qgtb_true (x y : Q) : (x >? y) = true <-> y < x.
Proof. apply Qltb_true. Qed.

Lemma Qgtb_false (x y : Q) : (x >? y) = false <-> x <= y.
Proof. apply Qltb_false. Qed.

Lemma Qgeb_true (x y : Q) : (x >=? y) = true <-> y <= x.
Proof. apply Qle_bool_iff. Qed.

Lemma Qgeb_false (x y : Q) : (x >=? y) = false <-> x < y.
Proof. apply Qleb_false. Qed.

Lemma Qeqb_false (x y : Q) : (x ==? y) = false <-> ~ x == y.
Proof. rewrite <- not_true_iff_false, Qeq_bool_iff. tauto. Qed.

(** Turn the boolean facts of the context into order facts. *)
Ltac order_facts :=
  repeat match goal with
  | H : (_ && _)%bool = true |- _ => apply andb_true_iff in H; destruct H
  | H : (_ && _)%bool = false |- _ => apply andb_false_iff in H; destruct H
  | H : (_ <? _) = true |- _ => apply Qltb_true in H
  | H : (_ <? _) = false |- _ => apply Qltb_false in H
  | H : (_ >? _) = true |- _ => apply Qgtb_true in H
  | H : (_ >? _) = false |- _ => apply Qgtb_false in H
  | H : (_ >=? _) = true |- _ => apply Qgeb_true in H
  | H : (_ >=? _) = false |- _ => apply Qgeb_false in H
  | H : (_ <=? _) = true |- _ => apply Qle_bool_iff in H
  | H : (_ <=? _) = false |- _ => apply Qleb_false in H
  | H : (_ ==? _) = true |- _ => apply Qeq_bool_iff in H
  | H : (_ ==? _) = false |- _ => apply Qeqb_false in H
  end.

(** Split on the test of the first conditional of the goal. *)
Ltac split_test :=
  match goal with
  | |- context [if ?b then _ else _] =>
      let E := fresh "E" in destruct b eqn:E; order_facts
  end.

Section Properties.

Variable K : vic_consts.
Variable icerad : Q -> Q -> Q -> Q * Q * Q.
Variable IceEnergyBalance : Q -> eb_args -> Q * eb_cells.
Variable root_brent :
  Q -> Q -> (Q -> eb_args -> Q * eb_cells) -> eb_args -> brent_result.

(** ** Melt partition of the isothermal branch *)

(** Lines 271-291 on any locals: the snowmelt is set against snow ice first
    and lake ice second.  Melt below the snow ice lowers the snow ice and raises the
    surface liquid by the melt.  Melt from the snow ice up to (not
    including) snow ice plus lake ice zeroes the snow ice, lowers the lake
    ice by the remainder, records that remainder as ice melt and raises the
    surface liquid by the former snow ice.  Melt at or above the total ice
    is clamped to the total, zeroes both reservoirs and records the whole
    lake ice as ice melt. *)
Lemma melt_partition_cases (w : frame) :
  let w' := melt_partition w in
  (SnowMelt w < SnowIce w ->
     SnowIce w' = SnowIce w - SnowMelt w /\
     surf_water (snow w') = surf_water (snow w) + SnowMelt w /\
     LakeIce w' = LakeIce w /\ IceMelt w' = IceMelt w /\
     SnowMelt w' = SnowMelt w) /\
  (SnowIce w <= SnowMelt w -> SnowMelt w < SnowIce w + LakeIce w ->
     SnowIce w' = 0 /\
     LakeIce w' = LakeIce w - (SnowMelt w - SnowIce w) /\
     IceMelt w' = SnowMelt w - SnowIce w /\
     surf_water (snow w') = surf_water (snow w) + SnowIce w /\
     SnowMelt w' = SnowMelt w) /\
  (SnowIce w <= SnowMelt w -> SnowIce w + LakeIce w <= SnowMelt w ->
     SnowMelt w' = SnowIce w + LakeIce w /\
     SnowIce w' = 0 /\ LakeIce w' = 0 /\
     IceMelt w' = LakeIce w /\
     surf_water (snow w') = surf_water (snow w) + SnowIce w).
Proof.
  cbv zeta. unfold melt_partition.
  repeat split_test; repeat split; intros; simpl; try reflexivity;
    exfalso; lra.
Qed.

(** ** Freezing of the surface layer in the subfreezing branch *)


(** ** The three ways through [ice_melt] *)

Local Abbreviation entry_of := (entry_state K icerad IceEnergyBalance).
Local Abbreviation solver_of := (solver_call K IceEnergyBalance root_brent).
Local Abbreviation run_of := (ice_melt_run K icerad IceEnergyBalance root_brent).
Local Abbreviation step := (ice_melt K icerad IceEnergyBalance root_brent).
Local Abbreviation isothermal_of := (isothermal_branch K).
Local Abbreviation subfreezing_of := (subfreezing_branch K IceEnergyBalance root_brent).
Local Abbreviation solved_energy_of := (solved_energy K IceEnergyBalance root_brent).

Lemma run_isothermal (f : forcing) (s : snow_data_struct) (l : lake_var_struct) :
  Qnet0 (entry_of f s l) == 0 ->
  run_of f s l =
    mkRun [call_icerad; call_CalcIcePackEnergyBalance 0]
          (Some (isothermal_of f (frame0 (entry_of f s l))))
          (returned K (entry_of f s l) (isothermal_of f (frame0 (entry_of f s l)))
                    (Qnet0 (entry_of f s l)) (cells0 (entry_of f s l))).
Proof.
  intro H. apply Qeq_bool_iff in H.
  unfold ice_melt_run. cbv zeta. rewrite H. reflexivity.
Qed.

Lemma run_exit (f : forcing) (s : snow_data_struct) (l : lake_var_struct) :
  ~ Qnet0 (entry_of f s l) == 0 ->
  root (solver_of f (entry_of f s l)) <= -9998 ->
  run_of f s l =
    mkRun [call_icerad; call_CalcIcePackEnergyBalance 0;
           call_root_brent (solver_guess K (entry_of f s l)) 0;
           call_ErrorIcePackEnergyBalance (root (solver_of f (entry_of f s l)))]
          None
          (Exited (ErrorPrintIcePackEnergyBalance
                     (root (solver_of f (entry_of f s l)))
                     (branch_args K f (entry_of f s l)
                        (brent_cells (solver_of f (entry_of f s l))))
                     (brent_cells (solver_of f (entry_of f s l)))
                     (ErrorString (solver_of f (entry_of f s l))))).
Proof.
  intros H1 H2. apply Qeqb_false in H1. apply Qle_bool_iff in H2.
  unfold ice_melt_run. cbv zeta. rewrite H1, H2. reflexivity.
Qed.

Lemma run_subfreezing (f : forcing) (s : snow_data_struct) (l : lake_var_struct) :
  ~ Qnet0 (entry_of f s l) == 0 ->
  -9998 < root (solver_of f (entry_of f s l)) ->
  run_of f s l =
    mkRun [call_icerad; call_CalcIcePackEnergyBalance 0;
           call_root_brent (solver_guess K (entry_of f s l)) 0;
           call_CalcIcePackEnergyBalance (root (solver_of f (entry_of f s l)))]
          (Some (subfreezing_of f (entry_of f s l)))
          (returned K (entry_of f s l) (subfreezing_of f (entry_of f s l))
                    (fst (solved_energy_of f (entry_of f s l)))
                    (snd (solved_energy_of f (entry_of f s l)))).
Proof.
  intros H1 H2. apply Qeqb_false in H1. apply Qleb_false in H2.
  unfold ice_melt_run. cbv zeta. rewrite H1, H2. reflexivity.
Qed.

(** A call that returns has been through [finish] with the locals of its
    branch. *)
Lemma returned_through_finish (f : forcing) (s : snow_data_struct)
    (l : lake_var_struct) (r : ice_melt_result) :
  step f s l = Returned r ->
  exists (w : frame) (Qnet : Q) (c : eb_cells),
    branch_frame (run_of f s l) = Some w /\
    (w = isothermal_of f (frame0 (entry_of f s l)) \/
     w = subfreezing_of f (entry_of f s l)) /\
    r = finish K w (InitialSwq (entry_of f s l)) (InitialIce (entry_of f s l))
               (RainFall (entry_of f s l)) (SnowFall (entry_of f s l))
               Qnet (deltaCC (entry_of f s l)) c (c_RefreezeEnergy c).
Proof.
  unfold ice_melt.
  destruct (Qeq_dec (Qnet0 (entry_of f s l)) 0) as [Hz | Hz].
  - rewrite (run_isothermal f s l Hz). cbn [result]. unfold returned.
    intro H. injection H as <-.
    do 3 eexists. split; [ reflexivity | split; [ left; reflexivity | reflexivity ] ].
  - destruct (Qlt_le_dec (-9998) (root (solver_of f (entry_of f s l)))) as [Hr | Hr].
    + rewrite (run_subfreezing f s l Hz Hr). cbn [result]. unfold returned.
      intro H. injection H as <-.
      do 3 eexists. split; [ reflexivity | split; [ right; reflexivity | reflexivity ] ].
    + rewrite (run_exit f s l Hz Hr). cbn [result]. discriminate.
Qed.

(** ** Branch selection *)

(** C1 (amended): when the net energy of the energy balance at 0 C is
    exactly zero, the step takes the isothermal branch and does not call the
    root solver; when it is not zero, whether negative or positive, the step
    calls the root solver. *)
Theorem C1_branch_selection (f : forcing) (s : snow_data_struct)
    (l : lake_var_struct) :
  (Qnet0 (entry_of f s l) == 0 ->
     solver_invoked (run_of f s l) = false /\
     calls (run_of f s l) = [call_icerad; call_CalcIcePackEnergyBalance 0] /\
     branch_frame (run_of f s l) =
       Some (isothermal_of f (frame0 (entry_of f s l)))) /\
  (~ Qnet0 (entry_of f s l) == 0 ->
     solver_invoked (run_of f s l) = true /\
     nth_error (calls (run_of f s l)) 2 =
       Some (call_root_brent (solver_guess K (entry_of f s l)) 0)).
Proof.
  split; intro Hz.
  - rewrite (run_isothermal f s l Hz). repeat split.
  - destruct (Qlt_le_dec (-9998) (root (solver_of f (entry_of f s l)))) as [Hr | Hr].
    + rewrite (run_subfreezing f s l Hz Hr). split; reflexivity.
    + rewrite (run_exit f s l Hz Hr). split; reflexivity.
Qed.

(** ** The diagnostic path *)

(** C7 (amended): in the subfreezing branch the step enters the diagnostic
    path, dumping the thirty-four parameters and ending the process with no
    result and no second call of the solver, exactly when the root solver
    returns a value at or below -9998; above -9998 the step returns. *)
Theorem C7_error_path (f : forcing) (s : snow_data_struct) (l : lake_var_struct) :
  ~ Qnet0 (entry_of f s l) == 0 ->
  (root (solver_of f (entry_of f s l)) <= -9998 ->
     error_path_invoked (run_of f s l) = true /\
     (exists dump,
        step f s l = Exited dump /\
        List.length (filter is_name_value dump) = 34%nat /\
        nth_error dump 19 =
          Some (NameValue "OldTSurf" (surf_temp s))) /\
     branch_frame (run_of f s l) = None /\
     List.length (filter is_root_brent (calls (run_of f s l))) = 1%nat) /\
  (-9998 < root (solver_of f (entry_of f s l)) ->
     error_path_invoked (run_of f s l) = false /\
     exists r, step f s l = Returned r).
Proof.
  intro Hz. split; intro Hr.
  - unfold ice_melt. rewrite (run_exit f s l Hz Hr). simpl.
    repeat split. eexists. split; [ reflexivity | ]. split; [ reflexivity | ].
    simpl. unfold entry_state. cbv zeta.
    destruct (icerad _ _ _) as [[a b] c].
    destruct (CalcIcePackEnergyBalance _ _ _) as [q cs]. reflexivity.
  - unfold ice_melt. rewrite (run_subfreezing f s l Hz Hr). simpl.
    split; [ reflexivity | eexists; reflexivity ].
Qed.

(** ** The cap on surface liquid water *)

Lemma finish_cap (w : frame) (iswq iice rain snowf q dcc : Q) (c : eb_cells)
    (ro : Q) :
  let r := finish K w iswq iice rain snowf q dcc c ro in
  let cap := LIQUID_WATER_CAPACITY K * SnowIce w in
  surf_water (r_snow r) <= cap /\
  swq (r_snow r) = SnowIce w + surf_water (r_snow r) /\
  (cap < surf_water (snow w) ->
     melt r = (surf_water (snow w) - cap) * 1000 /\
     surf_water (r_snow r) = cap) /\
  (surf_water (snow w) <= cap ->
     melt r = 0 * 1000 /\
     surf_water (r_snow r) = surf_water (snow w)).
Proof.
  cbv zeta. unfold finish.
  destruct (surf_water (snow w) >? LIQUID_WATER_CAPACITY K * SnowIce w) eqn:E;
    order_facts; cbv zeta; split_test; simpl;
    repeat split; intros; try reflexivity; try lra.
Qed.


(** ** Fields the step leaves alone *)

Ltac untouched_phase :=
  unfold untouched; cbv zeta; repeat split_test; simpl; tauto.

Lemma untouched_refreeze_or_melt s l dt w :
  untouched s l (snow w) (lake w) ->
  untouched s l (snow (refreeze_or_melt K dt w)) (lake (refreeze_or_melt K dt w)).
Proof. unfold refreeze_or_melt. untouched_phase. Qed.

Lemma untouched_vapor_adjust_isothermal s l fp w :
  untouched s l (snow w) (lake w) ->
  untouched s l (snow (vapor_adjust_isothermal fp w))
            (lake (vapor_adjust_isothermal fp w)).
Proof. unfold vapor_adjust_isothermal. untouched_phase. Qed.

Lemma untouched_melt_partition s l w :
  untouched s l (snow w) (lake w) ->
  untouched s l (snow (melt_partition w)) (lake (melt_partition w)).
Proof. unfold melt_partition. untouched_phase. Qed.

Lemma untouched_freeze_surface_water s l dt w :
  untouched s l (snow w) (lake w) ->
  untouched s l (snow (freeze_surface_water K dt w))
            (lake (freeze_surface_water K dt w)).
Proof. unfold freeze_surface_water. untouched_phase. Qed.

Lemma untouched_vapor_adjust_subfreezing s l fp w :
  untouched s l (snow w) (lake w) ->
  untouched s l (snow (vapor_adjust_subfreezing fp w))
            (lake (vapor_adjust_subfreezing fp w)).
Proof. unfold vapor_adjust_subfreezing. untouched_phase. Qed.

Lemma untouched_entry f s l :
  untouched s l (snow (frame0 (entry_of f s l))) (lake (frame0 (entry_of f s l))).
Proof.
  unfold entry_state. cbv zeta.
  destruct (icerad _ _ _) as [[a b] c].
  destruct (CalcIcePackEnergyBalance _ _ _) as [q cs].
  unfold untouched. simpl. tauto.
Qed.

Lemma untouched_finish s l w iswq iice rain snowf q dcc c ro :
  untouched s l (snow w) (lake w) ->
  untouched s l (r_snow (finish K w iswq iice rain snowf q dcc c ro))
            (r_lake (finish K w iswq iice rain snowf q dcc c ro)).
Proof.
  unfold finish.
  destruct (surf_water (snow w) >? LIQUID_WATER_CAPACITY K * SnowIce w);
    untouched_phase.
Qed.

(** C10: every call that returns leaves [pack_water] and [pack_temp] as
    they were, although the header lists them as modified, and likewise
    [melt_energy] and the lake's areas: of the snow structure only
    [surf_temp], [surf_water], [swq], [vapor_flux], [blowing_flux],
    [surface_flux] and [mass_error] can change, of the lake structure only
    [hice], [fraci] and [volume]. *)
Theorem C10_untouched_fields (f : forcing) (s : snow_data_struct)
    (l : lake_var_struct) (r : ice_melt_result) :
  step f s l = Returned r ->
  pack_water (r_snow r) = pack_water s /\
  pack_temp (r_snow r) = pack_temp s /\
  melt_energy (r_snow r) = melt_energy s /\
  surface (r_lake r) = surface l.
Proof.
  intro H.
  destruct (returned_through_finish f s l r H) as (w & q & c & _ & Hw & ->).
  apply untouched_finish.
  pose proof (untouched_entry f s l) as He.
  destruct Hw as [-> | ->].
  - unfold isothermal_branch. cbv zeta.
    apply untouched_melt_partition, untouched_vapor_adjust_isothermal,
      untouched_refreeze_or_melt.
    exact He.
  - unfold subfreezing_branch. cbv zeta.
    apply untouched_vapor_adjust_subfreezing, untouched_freeze_surface_water.
    exact He.
Qed.

(** ** Vapor flux against the three reservoirs of the isothermal branch *)


(** ** What always holds of the final accounting *)

(** The stored diagnostic is the residual of lines 423-424, with the melt
    output taken in metres and the vapor flux before its sign is inverted. *)
Lemma mass_error_formula (w : frame) (iswq iice rain snowf q dcc : Q)
    (c : eb_cells) (ro : Q) :
  let r := finish K w iswq iice rain snowf q dcc c ro in
  mass_error (r_snow r) ==
    (iswq - swq (r_snow r)) + (iice - LakeIce w) + (rain + snowf)
    - IceMelt w - melt r / 1000 + - vapor_flux (r_snow r).
Proof.
  cbv zeta. unfold finish.
  destruct (surf_water (snow w) >? LIQUID_WATER_CAPACITY K * SnowIce w);
    cbv zeta; split_test; simpl; field.
Qed.

(** The thickness of the lake ice is never negative on return, and the ice
    fraction is zero where the thickness is. *)
Lemma hice_nonneg (w : frame) (iswq iice rain snowf q dcc : Q)
    (c : eb_cells) (ro : Q) :
  let r := finish K w iswq iice rain snowf q dcc c ro in
  0 <= hice (r_lake r) /\
  (LakeIce w * RHO_W K / RHOICE K <= 0 ->
     hice (r_lake r) = 0 /\ fraci (r_lake r) = 0).
Proof.
  cbv zeta. unfold finish.
  destruct (surf_water (snow w) >? LIQUID_WATER_CAPACITY K * SnowIce w);
    cbv zeta; split_test; simpl in *; split; intros;
    try split; try reflexivity; try lra.
Qed.

(** ** The assertion of line 232 *)

(** X12: [assert(snow->surf_water >= 0.0)] cannot fail: the refrozen water
    has just been capped at the surface water.  The model therefore has no
    path for a failed assertion. *)
Lemma assertion_line_232 (dt : Z) (w : frame) :
  0 <= RefreezeEnergy w ->
  0 <= surf_water (snow (refreeze_or_melt K dt w)).
Proof.
  intro H. apply Qgeb_true in H. unfold refreeze_or_melt. rewrite H. cbv zeta.
  split_test; simpl in *; lra.
Qed.

(** ** Where the water goes *)

Lemma store_refreeze_or_melt (dt : Z) (w : frame) :
  store (refreeze_or_melt K dt w) == store w /\
  IceMelt (refreeze_or_melt K dt w) = IceMelt w /\
  vapor_flux (snow (refreeze_or_melt K dt w)) = vapor_flux (snow w).
Proof.
  unfold refreeze_or_melt, store. cbv zeta.
  repeat split_test; simpl; (split; [ ring | split; reflexivity ]).
Qed.

Lemma store_vapor_adjust_isothermal (fp : Q) (w : frame) :
  store (vapor_adjust_isothermal fp w)
  == store w + vapor_flux (snow (vapor_adjust_isothermal fp w))
     + double_counted_liquid w /\
  IceMelt (vapor_adjust_isothermal fp w) = IceMelt w.
Proof.
  unfold vapor_adjust_isothermal, double_counted_liquid, store.
  repeat split_test; simpl; (split; [ ring | reflexivity ]).
Qed.

(** The melt partition overwrites [IceMelt]; what leaves the lake ice is
    what it records. *)
Lemma store_melt_partition (w : frame) :
  store (melt_partition w) + IceMelt (melt_partition w)
  == store w + (if SnowMelt w <? SnowIce w then IceMelt w else 0) /\
  vapor_flux (snow (melt_partition w)) = vapor_flux (snow w).
Proof.
  unfold melt_partition, store.
  repeat split_test; simpl; (split; [ ring | reflexivity ]).
Qed.

Lemma store_freeze_surface_water (dt : Z) (w : frame) :
  store (freeze_surface_water K dt w) == store w /\
  IceMelt (freeze_surface_water K dt w) = IceMelt w /\
  vapor_flux (snow (freeze_surface_water K dt w)) = vapor_flux (snow w).
Proof.
  unfold freeze_surface_water, store. simpl.
  split; [ ring | split; reflexivity ].
Qed.

Lemma store_vapor_adjust_subfreezing (fp : Q) (w : frame) :
  store (vapor_adjust_subfreezing fp w)
  == store w + vapor_flux (snow (vapor_adjust_subfreezing fp w))
     - uncounted_flux w /\
  IceMelt (vapor_adjust_subfreezing fp w) = IceMelt w.
Proof.
  unfold vapor_adjust_subfreezing, uncounted_flux, store.
  repeat split_test; simpl; (split; [ ring | reflexivity ]).
Qed.

Lemma store_entry (f : forcing) (s : snow_data_struct) (l : lake_var_struct) :
  store (frame0 (entry_of f s l))
  == InitialSwq (entry_of f s l) + InitialIce (entry_of f s l)
     + RainFall (entry_of f s l) + SnowFall (entry_of f s l) /\
  IceMelt (frame0 (entry_of f s l)) = 0.
Proof.
  unfold entry_state. cbv zeta.
  destruct (icerad _ _ _) as [[a b] c].
  destruct (CalcIcePackEnergyBalance _ _ _) as [q cs].
  unfold store. simpl. split; [ ring | reflexivity ].
Qed.

Lemma finish_mass_error (w : frame) (iswq iice rain snowf q dcc : Q)
    (c : eb_cells) (ro : Q) :
  mass_error (r_snow (finish K w iswq iice rain snowf q dcc c ro))
  == (iswq + iice + rain + snowf) - (store w + IceMelt w)
     + vapor_flux (snow w).
Proof.
  unfold finish, store.
  destruct (surf_water (snow w) >? LIQUID_WATER_CAPACITY K * SnowIce w);
    cbv zeta; split_test; simpl; ring.
Qed.

(** The residual of every returning call: it is zero except for the surface
    liquid that the isothermal clamp counts twice, and for the flux that the
    subfreezing branch sends to the lake volume when no snow ice is left. *)
Lemma mass_error_isothermal (f : forcing) (s : snow_data_struct)
    (l : lake_var_struct) (r : ice_melt_result) :
  Qnet0 (entry_of f s l) == 0 ->
  step f s l = Returned r ->
  mass_error (r_snow r)
  == - double_counted_liquid
         (refreeze_or_melt K (delta_t f)
            (upd_snow (set_surf_temp 0) (frame0 (entry_of f s l)))).
Proof.
  intros Hz H. unfold ice_melt in H. rewrite (run_isothermal f s l Hz) in H.
  cbn [result] in H. unfold returned in H. injection H as <-.
  rewrite finish_mass_error. unfold isothermal_branch. cbv zeta.
  set (w0 := upd_snow (set_surf_temp 0) (frame0 (entry_of f s l))).
  set (w1 := refreeze_or_melt K (delta_t f) w0).
  set (w2 := vapor_adjust_isothermal (fracprv f) w1).
  destruct (store_entry f s l) as [He Hi0].
  destruct (store_refreeze_or_melt (delta_t f) w0) as (H1 & Hi1 & _).
  destruct (store_vapor_adjust_isothermal (fracprv f) w1) as [H2 Hi2].
  destruct (store_melt_partition w2) as [H3 Hv3].
  fold w1 in H1, Hi1. fold w2 in H2, Hi2.
  assert (Hi : IceMelt w2 = 0) by (rewrite Hi2, Hi1; exact Hi0).
  rewrite Hi in H3.
  assert (H3' : store (melt_partition w2) + IceMelt (melt_partition w2)
                == store w2)
    by (destruct (SnowMelt w2 <? SnowIce w2); lra).
  rewrite Hv3.
  change (store w0) with (store (frame0 (entry_of f s l))) in H1.
  lra.
Qed.

Lemma mass_error_subfreezing (f : forcing) (s : snow_data_struct)
    (l : lake_var_struct) (r : ice_melt_result) :
  ~ Qnet0 (entry_of f s l) == 0 ->
  step f s l = Returned r ->
  mass_error (r_snow r)
  == uncounted_flux
       (freeze_surface_water K (delta_t f)
          (solved_frame K IceEnergyBalance root_brent f (entry_of f s l))).
Proof.
  intros Hz H. unfold ice_melt in H.
  destruct (Qlt_le_dec (-9998) (root (solver_of f (entry_of f s l)))) as [Hr | Hr].
  2: { rewrite (run_exit f s l Hz Hr) in H. discriminate H. }
  rewrite (run_subfreezing f s l Hz Hr) in H.
  cbn [result] in H. unfold returned in H. injection H as <-.
  rewrite finish_mass_error. unfold subfreezing_branch. cbv zeta.
  set (ws := solved_frame K IceEnergyBalance root_brent f (entry_of f s l)).
  set (w1 := freeze_surface_water K (delta_t f) ws).
  destruct (store_entry f s l) as [He Hi0].
  destruct (store_freeze_surface_water (delta_t f) ws) as (H1 & Hi1 & _).
  destruct (store_vapor_adjust_subfreezing (fracprv f) w1) as [H2 Hi2].
  fold w1 in H1, Hi1.
  rewrite Hi2, Hi1.
  change (IceMelt ws) with (IceMelt (frame0 (entry_of f s l))).
  rewrite Hi0.
  change (store ws) with (store (frame0 (entry_of f s l))) in H1.
  lra.
Qed.

(** ** Signs of the reservoirs *)

Lemma Qdiv_nonneg (a b : Q) : 0 <= a -> 0 < b -> 0 <= a / b.
Proof. intros Ha Hb. apply Qle_shift_div_l; [ exact Hb | lra ]. Qed.

Lemma scaled_nonneg (x a b c d : Q) :
  0 <= x -> 0 < a -> 0 < b -> 0 <= c -> 0 <= d -> 0 <= x / (a * b) * c * d.
Proof.
  intros Hx Ha Hb Hc Hd.
  apply Qmult_le_0_compat; [ apply Qmult_le_0_compat | ]; try assumption.
  apply Qdiv_nonneg; [ assumption | ].
  rewrite <- (Qmult_0_l b). apply Qmult_lt_compat_r; assumption.
Qed.

Lemma nonneg_entry (f : forcing) (s : snow_data_struct) (l : lake_var_struct) :
  valid_consts K -> valid_input f s l ->
  0 <= SnowIce (frame0 (entry_of f s l)) /\
  0 <= surf_water (snow (frame0 (entry_of f s l))) /\
  0 <= LakeIce (frame0 (entry_of f s l)).
Proof.
  intros (Hi & Hw & _) (_ & Hr & Hs & H0 & H1 & Hh).
  unfold entry_state. cbv zeta.
  destruct (icerad _ _ _) as [[a b] c].
  destruct (CalcIcePackEnergyBalance _ _ _) as [q cs]. simpl.
  assert (0 <= snowfall f / 1000) by (apply Qdiv_nonneg; [ assumption | reflexivity ]).
  assert (0 <= rainfall f / 1000) by (apply Qdiv_nonneg; [ assumption | reflexivity ]).
  repeat split; try lra.
  apply Qdiv_nonneg; [ | assumption ].
  apply Qmult_le_0_compat; [ assumption | lra ].
Qed.

Lemma nonneg_refreeze_or_melt (dt : Z) (w : frame) :
  valid_consts K -> (0 < dt)%Z ->
  0 <= SnowIce w -> 0 <= surf_water (snow w) ->
  0 <= SnowIce (refreeze_or_melt K dt w) /\
  0 <= surf_water (snow (refreeze_or_melt K dt w)) /\
  0 <= SnowMelt (refreeze_or_melt K dt w).
Proof.
  intros (_ & Hw & Hf & Hs & _) Hdt HS HW.
  assert (Hd : 0 <= inject_Z dt)
    by (change 0 with (inject_Z 0); rewrite <- Zle_Qle; lia).
  unfold refreeze_or_melt. cbv zeta.
  destruct (RefreezeEnergy w >=? 0) eqn:E; order_facts.
  - pose proof (scaled_nonneg (RefreezeEnergy w) (Lf K) (RHO_W K)
                  (inject_Z dt) (SECPHOUR K) E Hf Hw Hd (Qlt_le_weak _ _ Hs)).
    split_test; simpl in *; repeat split; lra.
  - simpl. repeat split; try assumption.
    apply scaled_nonneg; try assumption;
      [ apply Qabs_nonneg | apply Qlt_le_weak; assumption ].
Qed.

Lemma nonneg_vapor_adjust_isothermal (fp : Q) (w : frame) :
  0 <= SnowIce w -> 0 <= surf_water (snow w) -> ~ flux_equals_store w ->
  0 <= SnowIce (vapor_adjust_isothermal fp w) /\
  0 <= surf_water (snow (vapor_adjust_isothermal fp w)) /\
  SnowMelt (vapor_adjust_isothermal fp w) = SnowMelt w.
Proof.
  intros HS HW Hb. unfold flux_equals_store, store in Hb.
  unfold vapor_adjust_isothermal.
  repeat split_test; simpl; repeat split; try lra;
    destruct (Qlt_le_dec (SnowIce w + surf_water (snow w)) (- vapor_flux (snow w)));
    try lra; exfalso; apply Hb; split; lra.
Qed.

Lemma nonneg_melt_partition (w : frame) :
  0 <= SnowIce w -> 0 <= surf_water (snow w) -> 0 <= SnowMelt w ->
  0 <= SnowIce (melt_partition w) /\
  0 <= surf_water (snow (melt_partition w)).
Proof.
  intros HS HW HM. unfold melt_partition.
  repeat split_test; simpl; split; lra.
Qed.

Lemma nonneg_vapor_adjust_subfreezing (fp : Q) (w : frame) :
  0 <= SnowIce w -> surf_water (snow w) = 0 -> ~ flux_equals_store w ->
  0 <= SnowIce (vapor_adjust_subfreezing fp w) /\
  surf_water (snow (vapor_adjust_subfreezing fp w)) = 0.
Proof.
  intros HS HW Hb. unfold flux_equals_store, store in Hb. rewrite HW in Hb.
  unfold vapor_adjust_subfreezing.
  repeat split_test; simpl; (split; [ | assumption ]); try lra;
    destruct (Qlt_le_dec (SnowIce w) (- vapor_flux (snow w)));
    try lra; exfalso; apply Hb; split; lra.
Qed.

Lemma nonneg_finish (w : frame) (iswq iice rain snowf q dcc : Q)
    (c : eb_cells) (ro : Q) :
  valid_consts K ->
  0 <= SnowIce w -> 0 <= surf_water (snow w) ->
  0 <= swq (r_snow (finish K w iswq iice rain snowf q dcc c ro)) /\
  0 <= surf_water (r_snow (finish K w iswq iice rain snowf q dcc c ro)) /\
  0 <= melt (finish K w iswq iice rain snowf q dcc c ro).
Proof.
  intros (_ & _ & _ & _ & Hc) HS HW.
  pose proof (Qmult_le_0_compat _ _ Hc HS) as Hcap.
  unfold finish.
  destruct (surf_water (snow w) >? LIQUID_WATER_CAPACITY K * SnowIce w) eqn:E;
    order_facts; cbv zeta; split_test; simpl; repeat split; lra.
Qed.

End Properties.

(** * Examples on concrete inputs *)

Import Scenario.

Local Abbreviation run_with q re vf r :=
  (ice_melt_run consts icerad (energy q re vf) (brent r)).
Local Abbreviation step_with q re vf r :=
  (ice_melt consts icerad (energy q re vf) (brent r)).

Ltac by_evaluation :=
  vm_compute; first [ reflexivity | discriminate | intro; discriminate ].

(** C1, as stated, fails: with a net energy of +1 W/m2 at 0 C the step does
    not take the isothermal branch; it calls the root solver. *)
Lemma C1_positive_net_energy_calls_solver :
  0 < Qnet0 (entry_state consts icerad (energy 1 0 0) calm
                         (pack (1 # 100) 0) (lake_with_ice 0)) /\
  solver_invoked (run_with 1 0 0 (-1) calm (pack (1 # 100) 0) (lake_with_ice 0))
    = true /\
  calls (run_with 1 0 0 (-1) calm (pack (1 # 100) 0) (lake_with_ice 0))
    = [call_icerad; call_CalcIcePackEnergyBalance 0;
       call_root_brent (-2 - 5) 0; call_CalcIcePackEnergyBalance (-1)].
Proof. repeat split. Qed.

(** The amended C1 at two inputs: zero net energy, and net energy -1. *)
Lemma C1_branch_selection_witness :
  solver_invoked (run_with 0 0 0 (-1) calm (pack (1 # 100) 0) (lake_with_ice 0))
    = false /\
  solver_invoked (run_with (-1) 0 0 (-1) calm (pack (1 # 100) 0) (lake_with_ice 0))
    = true.
Proof.
  split.
  - apply (proj1 (C1_branch_selection consts icerad (energy 0 0 0) (brent (-1))
                    calm (pack (1 # 100) 0) (lake_with_ice 0))).
    by_evaluation.
  - apply (proj2 (C1_branch_selection consts icerad (energy (-1) 0 0) (brent (-1))
                    calm (pack (1 # 100) 0) (lake_with_ice 0))).
    by_evaluation.
Defined.

(** C2: a call that meets the preconditions and returns, with a non-zero
    mass-balance residual.  The pack holds 0.02 m of water equivalent, 0.01 m
    of it liquid, on an ice-free lake; the energy balance at 0 C reports zero
    net energy and a vapor flux of -1 m.  The flux is clamped to the 0.02 m
    in store, and the 0.01 m of liquid is delivered as melt all the same:
    the residual is -0.01 m. *)
Theorem C2_mass_error_when_vapor_flux_is_clamped :
  valid_consts consts /\
  valid_input calm (pack (2 # 100) (1 # 100)) (lake_with_ice 0) /\
  exists r,
    step_with 0 0 (-1) (-1) calm (pack (2 # 100) (1 # 100)) (lake_with_ice 0)
      = Returned r /\
    mass_error (r_snow r) == - (1 # 100) /\
    melt r == 10 /\
    swq (r_snow r) == 0 /\
    vapor_flux (r_snow r) == 2 # 100.
Proof.
  repeat split; try by_evaluation.
  eexists. split; [ reflexivity | ]. repeat split; by_evaluation.
Qed.

(** The residual is not zero either when vapor deposits on bare lake ice in
    the subfreezing branch: the flux goes to the lake volume, which the
    residual does not count. *)
Lemma mass_error_when_vapor_deposits_on_bare_ice :
  exists r,
    step_with (-1) 0 (1 # 1000) (-1) calm (pack 0 0) (lake_with_ice (1 # 10))
      = Returned r /\
    mass_error (r_snow r) == 1 # 1000 /\
    volume (r_lake r) == 100 + 10 * (1 # 1000).
Proof.
  eexists. split; [ reflexivity | ]. split; by_evaluation.
Qed.

(** C3: two calls that meet the preconditions and return a negative snow
    water equivalent.  Every number of the input is a binary fraction, and
    so is every intermediate value up to the snow ice that goes negative:
    the doubles of the code take exactly the values computed here.  The
    pack holds 1/512 m of snow ice on 125/8192 m of lake ice, which is
    917/65536 m of water; the vapor flux is minus their sum, -1045/65536 m.
    Neither strict test of the reservoir adjustment holds, so the whole
    flux is charged to the snow ice, which is left at -917/65536 m:
    subfreezing (first call) and isothermal (second call). *)
Theorem C3_negative_swq_when_vapor_flux_equals_store :
  valid_consts consts /\
  valid_input calm (pack (1 # 512) 0) (lake_with_ice (125 # 8192)) /\
  (125 # 8192) * RHOICE consts / RHO_W consts == 917 # 65536 /\
  (1 # 512) + (917 # 65536) == 1045 # 65536 /\
  (exists w r,
     branch_frame (run_with (-1) 0 (- (1045 # 65536)) (-1) calm
                            (pack (1 # 512) 0) (lake_with_ice (125 # 8192)))
       = Some w /\
     step_with (-1) 0 (- (1045 # 65536)) (-1) calm
               (pack (1 # 512) 0) (lake_with_ice (125 # 8192)) = Returned r /\
     SnowIce w == - (917 # 65536) /\
     swq (r_snow r) < 0 /\
     surf_water (r_snow r) < 0 /\
     hice (r_lake r) == 125 # 8192) /\
  (exists w r,
     branch_frame (run_with 0 0 (- (1045 # 65536)) (-1) calm
                            (pack (1 # 512) 0) (lake_with_ice (125 # 8192)))
       = Some w /\
     step_with 0 0 (- (1045 # 65536)) (-1) calm
               (pack (1 # 512) 0) (lake_with_ice (125 # 8192)) = Returned r /\
     surf_water (snow w) == - (917 # 65536) /\
     swq (r_snow r) == - (917 # 65536) /\
     hice (r_lake r) == 0).
Proof.
  repeat split; try by_evaluation;
    (do 2 eexists; split; [ reflexivity | split; [ reflexivity | ] ];
     repeat split; by_evaluation).
Qed.



(** C7, as stated, fails: a solver that returns exactly -9998, which is not
    below -9998, sends the step down the diagnostic path. *)
Lemma C7_sentinel_at_9998_enters_error_path :
  (root (solver_call consts (energy (-1) 0 0) (brent (-9998)) calm
           (entry_state consts icerad (energy (-1) 0 0) calm
                        (pack (1 # 100) 0) (lake_with_ice 0)))
   <? -9998) = false /\
  error_path_invoked
    (run_with (-1) 0 0 (-9998) calm (pack (1 # 100) 0) (lake_with_ice 0)) = true /\
  exists dump,
    step_with (-1) 0 0 (-9998) calm (pack (1 # 100) 0) (lake_with_ice 0)
      = Exited dump.
Proof.
  split; [ reflexivity | split; [ reflexivity | eexists; reflexivity ] ].
Qed.

(** The amended C7 at a solver result of -9999 and at one of -1. *)
Lemma C7_error_path_witness :
  error_path_invoked
    (run_with (-1) 0 0 (-9999) calm (pack (1 # 100) 0) (lake_with_ice 0)) = true /\
  error_path_invoked
    (run_with (-1) 0 0 (-1) calm (pack (1 # 100) 0) (lake_with_ice 0)) = false.
Proof.
  split.
  - refine (proj1 (proj1 (C7_error_path consts icerad (energy (-1) 0 0)
                            (brent (-9999)) calm (pack (1 # 100) 0)
                            (lake_with_ice 0) _) _)); by_evaluation.
  - refine (proj1 (proj2 (C7_error_path consts icerad (energy (-1) 0 0)
                            (brent (-1)) calm (pack (1 # 100) 0)
                            (lake_with_ice 0) _) _)); by_evaluation.
Defined.

(** C10 on a subfreezing call: the pack keeps its [pack_water] of 0.003 m,
    its [pack_temp] of -1 C and its [melt_energy] of 7 W/m2. *)
Lemma C10_untouched_fields_witness :
  pack_water (r_snow (the_result (pack (1 # 100) 0) (lake_with_ice 1)
                        (step_with (-1) 0 (- (1 # 1000)) (-1) calm
                                   (pack (1 # 100) 0) (lake_with_ice 1))))
    = pack_water (pack (1 # 100) 0) /\
  pack_temp (r_snow (the_result (pack (1 # 100) 0) (lake_with_ice 1)
                       (step_with (-1) 0 (- (1 # 1000)) (-1) calm
                                  (pack (1 # 100) 0) (lake_with_ice 1))))
    = pack_temp (pack (1 # 100) 0) /\
  melt_energy (r_snow (the_result (pack (1 # 100) 0) (lake_with_ice 1)
                         (step_with (-1) 0 (- (1 # 1000)) (-1) calm
                                    (pack (1 # 100) 0) (lake_with_ice 1))))
    = melt_energy (pack (1 # 100) 0) /\
  surface (r_lake (the_result (pack (1 # 100) 0) (lake_with_ice 1)
                     (step_with (-1) 0 (- (1 # 1000)) (-1) calm
                                (pack (1 # 100) 0) (lake_with_ice 1))))
    = surface (lake_with_ice 1).
Proof.
  apply (C10_untouched_fields consts icerad (energy (-1) 0 (- (1 # 1000)))
           (brent (-1)) calm (pack (1 # 100) 0) (lake_with_ice 1)).
  by_evaluation.
Defined.

(** * Further properties of the step *)

Section StepAsAWhole.

Variable K : vic_consts.
Variable icerad : Q -> Q -> Q -> Q * Q * Q.
Variable IceEnergyBalance : Q -> eb_args -> Q * eb_cells.
Variable root_brent :
  Q -> Q -> (Q -> eb_args -> Q * eb_cells) -> eb_args -> brent_result.

Local Abbreviation entry_of := (entry_state K icerad IceEnergyBalance).
Local Abbreviation solver_of := (solver_call K IceEnergyBalance root_brent).
Local Abbreviation run_of := (ice_melt_run K icerad IceEnergyBalance root_brent).
Local Abbreviation step := (ice_melt K icerad IceEnergyBalance root_brent).
Local Abbreviation solved_of := (solved_frame K IceEnergyBalance root_brent).
Local Abbreviation at_freezing f e :=
  (refreeze_or_melt K (delta_t f) (upd_snow (set_surf_temp 0) (frame0 e))).
Local Abbreviation below_freezing f e :=
  (freeze_surface_water K (delta_t f)
     (solved_frame K IceEnergyBalance root_brent f e)).

(** What the locals hold at line 217. *)
Lemma entry_fields (f : forcing) (s : snow_data_struct) (l : lake_var_struct) :
  SnowIce (frame0 (entry_of f s l)) = swq s - surf_water s + snowfall f / 1000 /\
  surf_water (snow (frame0 (entry_of f s l))) = surf_water s + rainfall f / 1000 /\
  LakeIce (frame0 (entry_of f s l)) = hice l * RHOICE K / RHO_W K /\
  lake (frame0 (entry_of f s l)) = l /\
  blowing_flux (snow (frame0 (entry_of f s l))) = 0 /\
  vapor_flux (snow (frame0 (entry_of f s l))) = c_vapor_flux (cells0 (entry_of f s l)) /\
  RefreezeEnergy (frame0 (entry_of f s l)) = c_RefreezeEnergy (cells0 (entry_of f s l)) /\
  surf_temp (snow (frame0 (entry_of f s l))) = surf_temp s.
Proof.
  unfold entry_state. cbv zeta.
  destruct (icerad _ _ _) as [[a b] c].
  destruct (CalcIcePackEnergyBalance _ _ _) as [q cs].
  simpl. repeat split.
Qed.

(** The branches reach the lake structure through [volume] only. *)
Ltac lake_phase :=
  cbv zeta; repeat split_test; simpl; split; reflexivity.

Lemma lake_refreeze_or_melt dt w :
  hice (lake (refreeze_or_melt K dt w)) = hice (lake w) /\
  fraci (lake (refreeze_or_melt K dt w)) = fraci (lake w).
Proof. unfold refreeze_or_melt. lake_phase. Qed.

Lemma lake_vapor_adjust_isothermal fp w :
  hice (lake (vapor_adjust_isothermal fp w)) = hice (lake w) /\
  fraci (lake (vapor_adjust_isothermal fp w)) = fraci (lake w).
Proof. unfold vapor_adjust_isothermal. lake_phase. Qed.

Lemma lake_melt_partition w :
  hice (lake (melt_partition w)) = hice (lake w) /\
  fraci (lake (melt_partition w)) = fraci (lake w).
Proof. unfold melt_partition. lake_phase. Qed.

Lemma lake_vapor_adjust_subfreezing fp w :
  hice (lake (vapor_adjust_subfreezing fp w)) = hice (lake w) /\
  fraci (lake (vapor_adjust_subfreezing fp w)) = fraci (lake w).
Proof. unfold vapor_adjust_subfreezing. lake_phase. Qed.

Lemma fraci_branch_frame (f : forcing) (s : snow_data_struct)
    (l : lake_var_struct) (w : frame) :
  w = isothermal_branch K f (frame0 (entry_of f s l)) \/
  w = subfreezing_branch K IceEnergyBalance root_brent f (entry_of f s l) ->
  fraci (lake w) = fraci l.
Proof.
  destruct (entry_fields f s l) as (_ & _ & _ & Hl & _).
  intros [-> | ->].
  - unfold isothermal_branch. cbv zeta.
    rewrite (proj2 (lake_melt_partition _)),
      (proj2 (lake_vapor_adjust_isothermal _ _)),
      (proj2 (lake_refreeze_or_melt _ _)).
    simpl. rewrite Hl. reflexivity.
  - unfold subfreezing_branch. cbv zeta.
    rewrite (proj2 (lake_vapor_adjust_subfreezing _ _)).
    simpl. rewrite Hl. reflexivity.
Qed.

Lemma finish_lake_and_melt (w : frame) (iswq iice rain snowf q dcc : Q)
    (c : eb_cells) (ro : Q) :
  let r := finish K w iswq iice rain snowf q dcc c ro in
  0 <= hice (r_lake r) /\
  0 <= melt r /\
  (hice (r_lake r) == 0 -> fraci (r_lake r) = 0) /\
  (0 < hice (r_lake r) ->
     fraci (r_lake r) = fraci (lake w) /\
     hice (r_lake r) = LakeIce w * RHO_W K / RHOICE K).
Proof.
  cbv zeta. unfold finish.
  destruct (surf_water (snow w) >? LIQUID_WATER_CAPACITY K * SnowIce w) eqn:E;
    order_facts; cbv zeta; split_test; simpl in *;
    repeat split; intros; try reflexivity; try lra.
Qed.

(** X1: whatever the inputs, a call that returns reports a lake ice
    thickness and a melt output that are not negative; the ice-covered
    fraction is zero when the thickness is zero and is the caller's value
    otherwise. *)
Theorem X1_ice_cover_and_melt_on_return (f : forcing) (s : snow_data_struct)
    (l : lake_var_struct) (r : ice_melt_result) :
  step f s l = Returned r ->
  0 <= hice (r_lake r) /\
  0 <= melt r /\
  (hice (r_lake r) == 0 -> fraci (r_lake r) = 0) /\
  (0 < hice (r_lake r) -> fraci (r_lake r) = fraci l).
Proof.
  intro H.
  destruct (returned_through_finish K icerad IceEnergyBalance root_brent
              f s l r H) as (w & q & c & _ & Hw & ->).
  pose proof (fraci_branch_frame f s l w Hw) as Hf.
  destruct (finish_lake_and_melt w (InitialSwq (entry_of f s l))
              (InitialIce (entry_of f s l)) (RainFall (entry_of f s l))
              (SnowFall (entry_of f s l)) q (deltaCC (entry_of f s l)) c
              (c_RefreezeEnergy c)) as (H1 & H2 & H3 & H4).
  repeat split; try assumption.
  intro Hp. rewrite <- Hf. apply H4, Hp.
Qed.

(** ** The blowing-snow flux *)

Ltac zero_flux_phase H :=
  cbv zeta; repeat split_test; simpl; try exact H; rewrite H; ring.

Lemma blowing_vapor_adjust_isothermal fp w :
  blowing_flux (snow w) == 0 ->
  blowing_flux (snow (vapor_adjust_isothermal fp w)) == 0.
Proof. intro H. unfold vapor_adjust_isothermal. zero_flux_phase H. Qed.

Lemma blowing_vapor_adjust_subfreezing fp w :
  blowing_flux (snow w) == 0 ->
  blowing_flux (snow (vapor_adjust_subfreezing fp w)) == 0.
Proof. intro H. unfold vapor_adjust_subfreezing. zero_flux_phase H. Qed.

Lemma blowing_refreeze_or_melt dt w :
  blowing_flux (snow (refreeze_or_melt K dt w)) = blowing_flux (snow w).
Proof. unfold refreeze_or_melt. cbv zeta. repeat split_test; reflexivity. Qed.

Lemma blowing_melt_partition w :
  blowing_flux (snow (melt_partition w)) = blowing_flux (snow w).
Proof. unfold melt_partition. repeat split_test; reflexivity. Qed.

Lemma blowing_finish (w : frame) (iswq iice rain snowf q dcc : Q)
    (c : eb_cells) (ro : Q) :
  blowing_flux (r_snow (finish K w iswq iice rain snowf q dcc c ro))
  = blowing_flux (snow w) /\
  surface_flux (r_snow (finish K w iswq iice rain snowf q dcc c ro))
  = surface_flux (snow w) /\
  vapor_flux (r_snow (finish K w iswq iice rain snowf q dcc c ro))
  = vapor_flux (snow w) * -1 /\
  surf_temp (r_snow (finish K w iswq iice rain snowf q dcc c ro))
  = surf_temp (snow w) /\
  volume (r_lake (finish K w iswq iice rain snowf q dcc c ro))
  = volume (lake w).
Proof.
  unfold finish.
  destruct (surf_water (snow w) >? LIQUID_WATER_CAPACITY K * SnowIce w);
    cbv zeta; split_test; simpl; repeat split.
Qed.

(** X2: on valid input the blowing-snow flux that a returning call leaves
    in the snow structure is zero, whatever the energy balance wrote to its
    [blowing_flux] cell: line 191 sets it, and the clamps only scale it.
    The scaling of lines 249 and 363 divides by the vapor flux; that
    divisor is not zero when a clamp acts, since the store it is compared
    with is not negative. *)
Theorem X2_blowing_flux_is_zero (f : forcing) (s : snow_data_struct)
    (l : lake_var_struct) (r : ice_melt_result) :
  valid_consts K -> valid_input f s l ->
  step f s l = Returned r ->
  blowing_flux (r_snow r) == 0 /\
  (store (at_freezing f (entry_of f s l))
   < - vapor_flux (snow (at_freezing f (entry_of f s l))) ->
     ~ vapor_flux (snow (at_freezing f (entry_of f s l))) == 0) /\
  (SnowIce (below_freezing f (entry_of f s l))
   + LakeIce (below_freezing f (entry_of f s l))
   < - vapor_flux (snow (below_freezing f (entry_of f s l))) ->
     ~ vapor_flux (snow (below_freezing f (entry_of f s l))) == 0).
Proof.
  intros HK Hin H.
  destruct (nonneg_entry K icerad IceEnergyBalance f s l HK Hin)
    as (NS & NW & NL).
  split; [ | split ].
  - destruct (returned_through_finish K icerad IceEnergyBalance root_brent
                f s l r H) as (w & q & c & _ & Hw & ->).
    rewrite (proj1 (blowing_finish _ _ _ _ _ _ _ _ _)).
    destruct (entry_fields f s l) as (_ & _ & _ & _ & Hb & _).
    destruct Hw as [-> | ->].
    + unfold isothermal_branch. cbv zeta.
      rewrite blowing_melt_partition.
      apply blowing_vapor_adjust_isothermal.
      rewrite blowing_refreeze_or_melt. simpl. rewrite Hb. reflexivity.
    + unfold subfreezing_branch. cbv zeta.
      apply blowing_vapor_adjust_subfreezing. simpl. rewrite Hb. reflexivity.
  - destruct (store_refreeze_or_melt K (delta_t f)
                (upd_snow (set_surf_temp 0) (frame0 (entry_of f s l))))
      as (H1 & _).
    change (store (upd_snow (set_surf_temp 0) (frame0 (entry_of f s l))))
      with (store (frame0 (entry_of f s l))) in H1.
    unfold store in H1 at 2.
    intros Hc Hv. rewrite Hv in Hc. lra.
  - change (SnowIce (below_freezing f (entry_of f s l)))
      with (SnowIce (frame0 (entry_of f s l))
            + surf_water (snow (frame0 (entry_of f s l)))).
    change (LakeIce (below_freezing f (entry_of f s l)))
      with (LakeIce (frame0 (entry_of f s l))).
    intros Hc Hv. rewrite Hv in Hc. lra.
Qed.

(** ** Vapor flux and the water in store *)

Lemma vapor_bound_isothermal fp w :
  - vapor_flux (snow (vapor_adjust_isothermal fp w)) <= store w.
Proof.
  unfold vapor_adjust_isothermal, store.
  repeat split_test; simpl; lra.
Qed.

Lemma vapor_bound_subfreezing fp w :
  - vapor_flux (snow (vapor_adjust_subfreezing fp w)) <= SnowIce w + LakeIce w.
Proof.
  unfold vapor_adjust_subfreezing.
  repeat split_test; simpl; lra.
Qed.

(** X3: the vapor flux that a returning call reports (positive for loss to
    the atmosphere) never exceeds the water the step had in store: prior
    snow water equivalent, the water equivalent of the lake ice, and the
    rain and snow of the step. *)
Theorem X3_reported_vapor_flux_within_store (f : forcing)
    (s : snow_data_struct) (l : lake_var_struct) (r : ice_melt_result) :
  step f s l = Returned r ->
  vapor_flux (r_snow r)
  <= swq s + hice l * RHOICE K / RHO_W K + rainfall f / 1000 + snowfall f / 1000.
Proof.
  intro H.
  destruct (returned_through_finish K icerad IceEnergyBalance root_brent
              f s l r H) as (w & q & c & _ & Hw & ->).
  destruct (blowing_finish w (InitialSwq (entry_of f s l))
              (InitialIce (entry_of f s l)) (RainFall (entry_of f s l))
              (SnowFall (entry_of f s l)) q (deltaCC (entry_of f s l)) c
              (c_RefreezeEnergy c)) as (_ & _ & -> & _).
  destruct (entry_fields f s l) as (HS & HW & HL & _).
  assert (Hst : store (frame0 (entry_of f s l))
                == swq s + hice l * RHOICE K / RHO_W K
                   + rainfall f / 1000 + snowfall f / 1000)
    by (unfold store; rewrite HS, HW, HL; ring).
  destruct Hw as [-> | ->].
  - unfold isothermal_branch. cbv zeta.
    rewrite (proj2 (store_melt_partition _)).
    pose proof (vapor_bound_isothermal (fracprv f)
                  (refreeze_or_melt K (delta_t f)
                     (upd_snow (set_surf_temp 0) (frame0 (entry_of f s l))))) as Hv.
    destruct (store_refreeze_or_melt K (delta_t f)
                (upd_snow (set_surf_temp 0) (frame0 (entry_of f s l))))
      as (H1 & _).
    change (store (upd_snow (set_surf_temp 0) (frame0 (entry_of f s l))))
      with (store (frame0 (entry_of f s l))) in H1.
    lra.
  - unfold subfreezing_branch. cbv zeta.
    pose proof (vapor_bound_subfreezing (fracprv f)
                  (freeze_surface_water K (delta_t f)
                     (solved_of f (entry_of f s l)))) as Hv.
    simpl in Hv.
    change (SnowIce (solved_of f (entry_of f s l)))
      with (SnowIce (frame0 (entry_of f s l))) in Hv.
    change (surf_water (snow (solved_of f (entry_of f s l))))
      with (surf_water (snow (frame0 (entry_of f s l)))) in Hv.
    change (LakeIce (solved_of f (entry_of f s l)))
      with (LakeIce (frame0 (entry_of f s l))) in Hv.
    unfold store in Hst. lra.
Qed.

(** ** The surface temperature on return *)

Lemma temp_phases dt fp w :
  surf_temp (snow (refreeze_or_melt K dt w)) = surf_temp (snow w) /\
  surf_temp (snow (vapor_adjust_isothermal fp w)) = surf_temp (snow w) /\
  surf_temp (snow (melt_partition w)) = surf_temp (snow w) /\
  surf_temp (snow (freeze_surface_water K dt w)) = surf_temp (snow w) /\
  surf_temp (snow (vapor_adjust_subfreezing fp w)) = surf_temp (snow w).
Proof.
  unfold refreeze_or_melt, vapor_adjust_isothermal, melt_partition,
    freeze_surface_water, vapor_adjust_subfreezing. cbv zeta.
  repeat split; repeat split_test; reflexivity.
Qed.

Lemma isothermal_surf_temp (f : forcing) (w : frame) :
  surf_temp (snow (isothermal_branch K f w)) = 0.
Proof.
  unfold isothermal_branch. cbv zeta.
  destruct (temp_phases (delta_t f) (fracprv f)
              (vapor_adjust_isothermal (fracprv f)
                 (refreeze_or_melt K (delta_t f) (upd_snow (set_surf_temp 0) w))))
    as (_ & _ & -> & _).
  destruct (temp_phases (delta_t f) (fracprv f)
              (refreeze_or_melt K (delta_t f) (upd_snow (set_surf_temp 0) w)))
    as (_ & -> & _).
  destruct (temp_phases (delta_t f) (fracprv f) (upd_snow (set_surf_temp 0) w))
    as (-> & _).
  reflexivity.
Qed.

Lemma finish_diagnostics (w : frame) (iswq iice rain snowf q dcc : Q)
    (c : eb_cells) (ro : Q) :
  let r := finish K w iswq iice rain snowf q dcc c ro in
  save_Qnet r = q /\ save_refreeze_energy r = ro /\ save_deltaCC r = dcc /\
  save_advection r = c_AdvectedEnergy c /\ save_SnowFlux r = c_GroundFlux c /\
  save_latent r = c_LatentHeat c /\ save_sensible r = c_SensibleHeat c /\
  save_LWnet r = c_LWnet c.
Proof.
  cbv zeta. unfold finish.
  destruct (surf_water (snow w) >? LIQUID_WATER_CAPACITY K * SnowIce w);
    cbv zeta; split_test; simpl; repeat split.
Qed.

(** X4: a returning call leaves a surface temperature of exactly 0 C after
    the isothermal branch, and after the subfreezing branch the value that
    [root_brent] returned, which is then above -9998; the net energy it
    reports after the isothermal branch is the zero it tested. *)
Theorem X4_surface_temperature_on_return (f : forcing) (s : snow_data_struct)
    (l : lake_var_struct) (r : ice_melt_result) :
  step f s l = Returned r ->
  (Qnet0 (entry_of f s l) == 0 /\
   surf_temp (r_snow r) = 0 /\ save_Qnet r == 0) \/
  (~ Qnet0 (entry_of f s l) == 0 /\
   surf_temp (r_snow r) = root (solver_of f (entry_of f s l)) /\
   -9998 < surf_temp (r_snow r)).
Proof.
  unfold ice_melt.
  destruct (Qeq_dec (Qnet0 (entry_of f s l)) 0) as [Hz | Hz].
  - rewrite (run_isothermal K icerad IceEnergyBalance root_brent f s l Hz).
    cbn [result]. unfold returned. intro H. injection H as <-.
    left. split; [ exact Hz | ].
    split; [ | rewrite (proj1 (finish_diagnostics _ _ _ _ _ _ _ _ _)); exact Hz ].
    rewrite (proj1 (proj2 (proj2 (proj2 (blowing_finish _ _ _ _ _ _ _ _ _))))).
    apply isothermal_surf_temp.
  - destruct (Qlt_le_dec (-9998) (root (solver_of f (entry_of f s l)))) as [Hr | Hr].
    + rewrite (run_subfreezing K icerad IceEnergyBalance root_brent f s l Hz Hr).
      cbn [result]. unfold returned. intro H. injection H as <-.
      right. split; [ exact Hz | ].
      rewrite (proj1 (proj2 (proj2 (proj2 (blowing_finish _ _ _ _ _ _ _ _ _))))).
      unfold subfreezing_branch. cbv zeta.
      destruct (temp_phases (delta_t f) (fracprv f)
                  (freeze_surface_water K (delta_t f)
                     (solved_of f (entry_of f s l))))
        as (_ & _ & _ & _ & ->).
      destruct (temp_phases (delta_t f) (fracprv f)
                  (solved_of f (entry_of f s l)))
        as (_ & _ & _ & -> & _).
      split; [ reflexivity | exact Hr ].
    + rewrite (run_exit K icerad IceEnergyBalance root_brent f s l Hz Hr).
      cbn [result]. discriminate.
Qed.

(** ** The lake volume *)

Lemma volume_vapor_adjust_isothermal fp w :
  volume (lake (vapor_adjust_isothermal fp w))
  == volume (lake w)
     + surface0 (lake w) * fp
       * (LakeIce (vapor_adjust_isothermal fp w) - LakeIce w) /\
  surface (lake (vapor_adjust_isothermal fp w)) = surface (lake w).
Proof.
  unfold vapor_adjust_isothermal.
  repeat split_test; simpl; (split; [ ring | reflexivity ]).
Qed.

Lemma volume_vapor_adjust_subfreezing fp w :
  volume (lake (vapor_adjust_subfreezing fp w))
  == volume (lake w)
     + surface0 (lake w) * fp
       * (LakeIce (vapor_adjust_subfreezing fp w) - LakeIce w
          + uncounted_flux w) /\
  surface (lake (vapor_adjust_subfreezing fp w)) = surface (lake w).
Proof.
  unfold vapor_adjust_subfreezing, uncounted_flux.
  repeat split_test; simpl; (split; [ ring | reflexivity ]).
Qed.

Lemma lake_ice_melt_partition w :
  IceMelt w = 0 ->
  LakeIce (melt_partition w) + IceMelt (melt_partition w) == LakeIce w /\
  lake (melt_partition w) = lake w.
Proof.
  intro H. unfold melt_partition.
  repeat split_test; simpl; try rewrite H; (split; [ ring | reflexivity ]).
Qed.

Lemma lake_untouched_by_refreeze dt w :
  lake (refreeze_or_melt K dt w) = lake w /\
  LakeIce (refreeze_or_melt K dt w) = LakeIce w.
Proof.
  unfold refreeze_or_melt. cbv zeta. repeat split_test; split; reflexivity.
Qed.

Lemma volume_isothermal_branch (f : forcing) (w : frame) :
  IceMelt w = 0 ->
  volume (lake (isothermal_branch K f w))
  == volume (lake w)
     + surface0 (lake w) * fracprv f
       * (LakeIce (isothermal_branch K f w) + IceMelt (isothermal_branch K f w)
          - LakeIce w).
Proof.
  intro Hi. unfold isothermal_branch. cbv zeta.
  set (w0 := upd_snow (set_surf_temp 0) w).
  assert (Hi0 : IceMelt w0 = 0) by exact Hi.
  assert (Hl0 : lake w0 = lake w) by reflexivity.
  assert (HL0 : LakeIce w0 = LakeIce w) by reflexivity.
  clearbody w0.
  destruct (lake_untouched_by_refreeze (delta_t f) w0) as [Hl1 HL1].
  destruct (store_refreeze_or_melt K (delta_t f) w0) as (_ & Hi1 & _).
  set (w1 := refreeze_or_melt K (delta_t f) w0) in *. clearbody w1.
  destruct (volume_vapor_adjust_isothermal (fracprv f) w1) as [Hv _].
  destruct (store_vapor_adjust_isothermal (fracprv f) w1) as [_ Hi2].
  set (w2 := vapor_adjust_isothermal (fracprv f) w1) in *. clearbody w2.
  assert (Hz : IceMelt w2 = 0) by (rewrite Hi2, Hi1; exact Hi0).
  destruct (lake_ice_melt_partition w2 Hz) as [Hm Hlm].
  set (w3 := melt_partition w2) in *. clearbody w3.
  rewrite Hlm, Hv, Hl1, HL1, Hl0, HL0, <- Hm.
  generalize (volume (lake w)), (surface0 (lake w)), (fracprv f),
    (LakeIce w3), (IceMelt w3), (LakeIce w).
  intros a b c d e g. ring.
Qed.

Lemma volume_subfreezing_branch (dt : Z) (fp : Q) (w : frame) :
  volume (lake (vapor_adjust_subfreezing fp (freeze_surface_water K dt w)))
  == volume (lake w)
     + surface0 (lake w) * fp
       * (LakeIce (vapor_adjust_subfreezing fp (freeze_surface_water K dt w))
          - LakeIce w + uncounted_flux (freeze_surface_water K dt w)) /\
  IceMelt (vapor_adjust_subfreezing fp (freeze_surface_water K dt w))
  = IceMelt w.
Proof.
  assert (Hl : lake (freeze_surface_water K dt w) = lake w) by reflexivity.
  assert (HL : LakeIce (freeze_surface_water K dt w) = LakeIce w) by reflexivity.
  assert (Hi : IceMelt (freeze_surface_water K dt w) = IceMelt w) by reflexivity.
  set (w1 := freeze_surface_water K dt w) in *. clearbody w1.
  destruct (volume_vapor_adjust_subfreezing fp w1) as [Hv _].
  destruct (store_vapor_adjust_subfreezing fp w1) as [_ Hi2].
  rewrite Hl, HL in Hv. split; [ exact Hv | rewrite Hi2; exact Hi ].
Qed.

Lemma solved_frame_fields (f : forcing) (e : entry) :
  lake (solved_of f e) = lake (frame0 e) /\
  LakeIce (solved_of f e) = LakeIce (frame0 e) /\
  IceMelt (solved_of f e) = IceMelt (frame0 e) /\
  SnowIce (solved_of f e) = SnowIce (frame0 e) /\
  surf_water (snow (solved_of f e)) = surf_water (snow (frame0 e)) /\
  surf_temp (snow (solved_of f e)) = root (solver_of f e).
Proof. repeat split. Qed.

Lemma volume_after_isothermal (f : forcing) (s : snow_data_struct)
    (l : lake_var_struct) (r : ice_melt_result) :
  Qnet0 (entry_of f s l) == 0 ->
  step f s l = Returned r ->
  volume (r_lake r)
  == volume l
     + surface0 l * fracprv f
       * (LakeIce (isothermal_branch K f (frame0 (entry_of f s l)))
          + IceMelt (isothermal_branch K f (frame0 (entry_of f s l)))
          - hice l * RHOICE K / RHO_W K).
Proof.
  intro Hz. unfold ice_melt.
  destruct (entry_fields f s l) as (_ & _ & HL & Hl & _).
  destruct (store_entry K icerad IceEnergyBalance f s l) as [_ Hi0].
  rewrite (run_isothermal K icerad IceEnergyBalance root_brent f s l Hz).
  cbn [result]. unfold returned. intro H. injection H as <-.
  rewrite (proj2 (proj2 (proj2 (proj2 (blowing_finish _ _ _ _ _ _ _ _ _))))).
  rewrite (volume_isothermal_branch f (frame0 (entry_of f s l)) Hi0).
  rewrite Hl, HL. reflexivity.
Qed.

Lemma volume_after_subfreezing (f : forcing) (s : snow_data_struct)
    (l : lake_var_struct) (r : ice_melt_result) :
  ~ Qnet0 (entry_of f s l) == 0 ->
  step f s l = Returned r ->
  volume (r_lake r)
  == volume l
     + surface0 l * fracprv f
       * (LakeIce (subfreezing_branch K IceEnergyBalance root_brent f
                     (entry_of f s l))
          - hice l * RHOICE K / RHO_W K
          + uncounted_flux (below_freezing f (entry_of f s l))).
Proof.
  intro Hz. unfold ice_melt.
  destruct (entry_fields f s l) as (_ & _ & HL & Hl & _).
  destruct (Qlt_le_dec (-9998) (root (solver_of f (entry_of f s l)))) as [Hr | Hr].
  - rewrite (run_subfreezing K icerad IceEnergyBalance root_brent f s l Hz Hr).
    cbn [result]. unfold returned. intro H. injection H as <-.
    rewrite (proj2 (proj2 (proj2 (proj2 (blowing_finish _ _ _ _ _ _ _ _ _))))).
    unfold subfreezing_branch. cbv zeta.
    destruct (volume_subfreezing_branch (delta_t f) (fracprv f)
                (solved_of f (entry_of f s l))) as [Hv _].
    destruct (solved_frame_fields f (entry_of f s l)) as (Sl & SL & _).
    rewrite Hv, Sl, SL, Hl, HL. reflexivity.
  - rewrite (run_exit K icerad IceEnergyBalance root_brent f s l Hz Hr).
    cbn [result]. discriminate.
Qed.

(** X5: on return the lake volume has moved, scaled by the area of the top
    layer and the prior ice-covered fraction, by exactly the lake ice that
    neither remains nor was recorded as melted into the lake, that is, the
    lake ice exchanged with the atmosphere; in the subfreezing branch it
    has moved besides by the flux that found no snow ice.  Melting lake
    ice never changes the volume. *)
Theorem X5_lake_volume_on_return (f : forcing) (s : snow_data_struct)
    (l : lake_var_struct) (r : ice_melt_result) :
  step f s l = Returned r ->
  (Qnet0 (entry_of f s l) == 0 ->
     volume (r_lake r)
     == volume l
        + surface0 l * fracprv f
          * (LakeIce (isothermal_branch K f (frame0 (entry_of f s l)))
             + IceMelt (isothermal_branch K f (frame0 (entry_of f s l)))
             - hice l * RHOICE K / RHO_W K)) /\
  (~ Qnet0 (entry_of f s l) == 0 ->
     volume (r_lake r)
     == volume l
        + surface0 l * fracprv f
          * (LakeIce (subfreezing_branch K IceEnergyBalance root_brent f
                        (entry_of f s l))
             - hice l * RHOICE K / RHO_W K
             + uncounted_flux (below_freezing f (entry_of f s l)))).
Proof.
  intro H. split; intro Hz.
  - exact (volume_after_isothermal f s l r Hz H).
  - exact (volume_after_subfreezing f s l r Hz H).
Qed.

(** ** Refreeze and melt at 0 C, lines 220-241 *)

(** X6: on valid constants and a positive time step, when the refreeze
    energy is not negative the refrozen water never exceeds the surface
    liquid, the refreeze energy kept by the step is the energy of exactly
    that water (also when the water was capped), it is what the melt-energy
    accumulator gains, and the water moves from surface liquid to snow ice
    with no snowmelt; when the refreeze energy is negative the snowmelt is
    strictly positive and no reservoir changes yet. *)
Theorem X6_refreeze_energy_matches_water (dt : Z) (w : frame) :
  valid_consts K -> (0 < dt)%Z ->
  (0 <= RefreezeEnergy w ->
     RefrozenWater (refreeze_or_melt K dt w)
     == RefreezeEnergy (refreeze_or_melt K dt w) / (Lf K * RHO_W K)
        * inject_Z dt * SECPHOUR K /\
     RefrozenWater (refreeze_or_melt K dt w) <= surf_water (snow w) /\
     loc_melt_energy (refreeze_or_melt K dt w)
     = loc_melt_energy w + RefreezeEnergy (refreeze_or_melt K dt w) /\
     SnowIce (refreeze_or_melt K dt w)
     = SnowIce w + RefrozenWater (refreeze_or_melt K dt w) /\
     surf_water (snow (refreeze_or_melt K dt w))
     = surf_water (snow w) - RefrozenWater (refreeze_or_melt K dt w) /\
     SnowMelt (refreeze_or_melt K dt w) = 0) /\
  (RefreezeEnergy w < 0 ->
     0 < SnowMelt (refreeze_or_melt K dt w) /\
     SnowMelt (refreeze_or_melt K dt w)
     == - RefreezeEnergy w / (Lf K * RHO_W K) * inject_Z dt * SECPHOUR K /\
     loc_melt_energy (refreeze_or_melt K dt w)
     = loc_melt_energy w + RefreezeEnergy w /\
     SnowIce (refreeze_or_melt K dt w) = SnowIce w /\
     surf_water (snow (refreeze_or_melt K dt w)) = surf_water (snow w)).
Proof.
  intros (_ & Hw & Hf & Hs & _) Hdt.
  assert (Hd : 0 < inject_Z dt)
    by (change 0 with (inject_Z 0); rewrite <- Zlt_Qlt; lia).
  assert (Hfw : 0 < Lf K * RHO_W K)
    by (rewrite <- (Qmult_0_l (RHO_W K)); apply Qmult_lt_compat_r; assumption).
  assert (Hds : 0 < inject_Z dt * SECPHOUR K)
    by (rewrite <- (Qmult_0_l (SECPHOUR K)); apply Qmult_lt_compat_r; assumption).
  split; intro HE.
  - apply Qgeb_true in HE. unfold refreeze_or_melt. rewrite HE. cbv zeta.
    split_test; simpl in *; repeat split; try reflexivity; try lra.
    field. split; lra.
  - pose proof HE as HE'. apply Qgeb_false in HE.
    unfold refreeze_or_melt. rewrite HE. cbv zeta. simpl.
    assert (Ha : Qabs (RefreezeEnergy w) == - RefreezeEnergy w)
      by (apply Qabs_neg; lra).
    assert (Hm : Qabs (RefreezeEnergy w) / (Lf K * RHO_W K) * inject_Z dt
                 * SECPHOUR K
                 == - RefreezeEnergy w / (Lf K * RHO_W K) * inject_Z dt
                    * SECPHOUR K)
      by (rewrite Ha; reflexivity).
    repeat split; try reflexivity; try exact Hm.
    rewrite Hm.
    apply Qmult_lt_0_compat; [ apply Qmult_lt_0_compat | ]; try assumption.
    apply Qlt_shift_div_l; [ assumption | lra ].
Qed.

(** ** Vapor flux against the two reservoirs of the subfreezing branch *)

(** X7: in the subfreezing branch, when snow ice + lake ice is below the
    magnitude of the vapor flux the flux is clamped to minus that total,
    both reservoirs are zeroed and the lake volume loses the lake ice
    scaled by area and prior fraction; when snow ice alone is below the
    magnitude and the total strictly above, the snow ice is zeroed and
    lake ice and scaled lake volume lose the rest; in every other case a
    positive snow ice takes the whole flux, and without snow ice the flux
    goes to the scaled lake volume and no reservoir changes. *)
Theorem X7_vapor_adjust_subfreezing (fp : Q) (w : frame) :
  let S := SnowIce w in
  let L := LakeIce w in
  let vf := vapor_flux (snow w) in
  let w' := vapor_adjust_subfreezing fp w in
  (S + L < - vf ->
     vapor_flux (snow w') = - (S + L) /\
     surface_flux (snow w') = - (S + L) - blowing_flux (snow w') /\
     SnowIce w' = 0 /\ LakeIce w' = 0 /\
     volume (lake w') = volume (lake w) - surface0 (lake w) * fp * L) /\
  (S < - vf -> - vf < S + L ->
     SnowIce w' = 0 /\
     LakeIce w' = L + (vf + S) /\
     volume (lake w') = volume (lake w) + surface0 (lake w) * fp * (vf + S) /\
     vapor_flux (snow w') = vf) /\
  (- vf <= S + L -> (- vf <= S \/ S + L <= - vf) ->
     LakeIce w' = L /\
     vapor_flux (snow w') = vf /\
     (0 < S -> SnowIce w' = S + vf /\ volume (lake w') = volume (lake w)) /\
     (S <= 0 ->
        SnowIce w' = S /\
        volume (lake w') = volume (lake w) + surface0 (lake w) * fp * vf)).
Proof.
  cbv zeta. unfold vapor_adjust_subfreezing.
  repeat split_test; repeat split; intros; simpl; try reflexivity;
    exfalso; try lra;
    match goal with H : _ \/ _ |- _ => destruct H; lra end.
Qed.

(** ** Two whole steps: complete melt, and nothing happening *)

Lemma melt_through_fields (w : frame) :
  SnowIce w <= SnowMelt w -> SnowIce w + LakeIce w <= SnowMelt w ->
  SnowIce (melt_partition w) = 0 /\
  LakeIce (melt_partition w) = 0 /\
  surf_water (snow (melt_partition w)) = surf_water (snow w) + SnowIce w /\
  IceMelt (melt_partition w) = LakeIce w.
Proof.
  intros H1 H2. unfold melt_partition.
  repeat split_test; simpl; repeat split; exfalso; lra.
Qed.

Lemma finish_after_melt_through (w : frame) (iswq iice rain snowf q dcc : Q)
    (c : eb_cells) (ro : Q) :
  SnowIce w <= SnowMelt w -> SnowIce w + LakeIce w <= SnowMelt w ->
  0 <= surf_water (snow w) + SnowIce w ->
  let r := finish K (melt_partition w) iswq iice rain snowf q dcc c ro in
  swq (r_snow r) == 0 /\ surf_water (r_snow r) == 0 /\
  hice (r_lake r) == 0 /\ fraci (r_lake r) = 0 /\
  melt r == (surf_water (snow w) + SnowIce w) * 1000.
Proof.
  intros H1 H2 H3. cbv zeta.
  destruct (melt_through_fields w H1 H2) as (FS & FL & FW & _).
  destruct (finish_cap K (melt_partition w) iswq iice rain snowf q dcc c ro)
    as (Hle & Hswq & Hover & Hkeep).
  destruct (finish_lake_and_melt (melt_partition w) iswq iice rain snowf q dcc c ro)
    as (Hh & _ & Hf & Hpos).
  set (r := finish K (melt_partition w) iswq iice rain snowf q dcc c ro) in *.
  clearbody r.
  rewrite FS in Hle, Hswq, Hover, Hkeep. rewrite FW in Hover, Hkeep.
  rewrite FL in Hpos.
  assert (Hcap : LIQUID_WATER_CAPACITY K * 0 == 0) by ring.
  assert (Hsw : surf_water (r_snow r) == 0 /\
                melt r == (surf_water (snow w) + SnowIce w) * 1000).
  { destruct (Qlt_le_dec (LIQUID_WATER_CAPACITY K * 0)
                (surf_water (snow w) + SnowIce w)) as [Hc | Hc].
    - destruct (Hover Hc) as [-> ->]. split; [ exact Hcap | ].
      rewrite Hcap. ring.
    - destruct (Hkeep Hc) as [-> ->]. rewrite Hcap in Hc.
      assert (Hz : surf_water (snow w) + SnowIce w == 0) by lra.
      split; [ exact Hz | rewrite Hz; ring ]. }
  destruct Hsw as [Hsw Hm].
  assert (Hh0 : hice (r_lake r) == 0).
  { destruct (Qlt_le_dec 0 (hice (r_lake r))) as [Hp | Hp]; [ | lra ].
    destruct (Hpos Hp) as [_ He]. rewrite He in Hp. exfalso.
    revert Hp. unfold Qdiv. rewrite !Qmult_0_l. intro Hp. lra. }
  repeat split; try assumption.
  - rewrite Hswq, Hsw. ring.
  - apply Hf, Hh0.
Qed.

(** X8: in the isothermal branch, when the snowmelt computed from the
    refreeze energy is at least the snow ice and at least the snow ice plus
    lake ice left by the vapor adjustment, the call returns with no snow
    water equivalent, no surface liquid, no lake ice and no ice cover; all
    the surface liquid and snow ice leave as melt output and the lake ice
    is recorded as melted into the lake. *)
Theorem X8_melt_through (f : forcing) (s : snow_data_struct)
    (l : lake_var_struct) :
  Qnet0 (entry_of f s l) == 0 ->
  SnowIce (vapor_adjust_isothermal (fracprv f) (at_freezing f (entry_of f s l)))
  <= SnowMelt (vapor_adjust_isothermal (fracprv f) (at_freezing f (entry_of f s l))) ->
  SnowIce (vapor_adjust_isothermal (fracprv f) (at_freezing f (entry_of f s l)))
  + LakeIce (vapor_adjust_isothermal (fracprv f) (at_freezing f (entry_of f s l)))
  <= SnowMelt (vapor_adjust_isothermal (fracprv f) (at_freezing f (entry_of f s l))) ->
  0 <= surf_water (snow (vapor_adjust_isothermal (fracprv f)
                           (at_freezing f (entry_of f s l))))
       + SnowIce (vapor_adjust_isothermal (fracprv f)
                    (at_freezing f (entry_of f s l))) ->
  exists r,
    step f s l = Returned r /\
    swq (r_snow r) == 0 /\ surf_water (r_snow r) == 0 /\
    hice (r_lake r) == 0 /\ fraci (r_lake r) = 0 /\
    melt r
    == (surf_water (snow (vapor_adjust_isothermal (fracprv f)
                            (at_freezing f (entry_of f s l))))
        + SnowIce (vapor_adjust_isothermal (fracprv f)
                     (at_freezing f (entry_of f s l)))) * 1000.
Proof.
  intros Hz H1 H2 H3. unfold ice_melt.
  rewrite (run_isothermal K icerad IceEnergyBalance root_brent f s l Hz).
  cbn [result]. unfold returned. eexists. split; [ reflexivity | ].
  unfold isothermal_branch. cbv zeta.
  destruct (finish_after_melt_through
              (vapor_adjust_isothermal (fracprv f) (at_freezing f (entry_of f s l)))
              (InitialSwq (entry_of f s l)) (InitialIce (entry_of f s l))
              (RainFall (entry_of f s l)) (SnowFall (entry_of f s l))
              (Qnet0 (entry_of f s l)) (deltaCC (entry_of f s l))
              (cells0 (entry_of f s l))
              (c_RefreezeEnergy (cells0 (entry_of f s l))) H1 H2 H3)
    as (A & B & C & D & E).
  repeat split; assumption.
Qed.

Lemma quiet_refreeze (dt : Z) (w : frame) :
  RefreezeEnergy w == 0 -> 0 <= surf_water (snow w) ->
  SnowIce (refreeze_or_melt K dt w) == SnowIce w /\
  surf_water (snow (refreeze_or_melt K dt w)) == surf_water (snow w) /\
  SnowMelt (refreeze_or_melt K dt w) = 0 /\
  LakeIce (refreeze_or_melt K dt w) = LakeIce w /\
  lake (refreeze_or_melt K dt w) = lake w /\
  vapor_flux (snow (refreeze_or_melt K dt w)) = vapor_flux (snow w) /\
  IceMelt (refreeze_or_melt K dt w) = IceMelt w.
Proof.
  intros HE HW.
  assert (HR : RefreezeEnergy w / (Lf K * RHO_W K) * inject_Z dt * SECPHOUR K
               == 0)
    by (rewrite HE; unfold Qdiv; ring).
  unfold refreeze_or_melt.
  destruct (RefreezeEnergy w >=? 0) eqn:E0; order_facts; [ | exfalso; lra ].
  cbv zeta.
  split_test; simpl in *; [ exfalso; lra | ].
  repeat split; lra.
Qed.

Lemma quiet_vapor (fp : Q) (w : frame) :
  vapor_flux (snow w) == 0 ->
  0 <= SnowIce w -> 0 <= surf_water (snow w) -> 0 <= LakeIce w ->
  SnowIce (vapor_adjust_isothermal fp w) = SnowIce w /\
  surf_water (snow (vapor_adjust_isothermal fp w)) == surf_water (snow w) /\
  LakeIce (vapor_adjust_isothermal fp w) = LakeIce w /\
  lake (vapor_adjust_isothermal fp w) = lake w /\
  SnowMelt (vapor_adjust_isothermal fp w) = SnowMelt w /\
  IceMelt (vapor_adjust_isothermal fp w) = IceMelt w /\
  double_counted_liquid w = 0.
Proof.
  intros Hv HS HW HL.
  unfold vapor_adjust_isothermal, double_counted_liquid.
  repeat split_test; simpl; try (exfalso; lra);
    repeat split; try reflexivity; lra.
Qed.

Lemma quiet_melt (w : frame) :
  SnowMelt w = 0 -> IceMelt w = 0 -> 0 <= SnowIce w -> 0 <= LakeIce w ->
  SnowIce (melt_partition w) == SnowIce w /\
  surf_water (snow (melt_partition w)) == surf_water (snow w) /\
  LakeIce (melt_partition w) == LakeIce w /\
  lake (melt_partition w) = lake w.
Proof.
  intros HM HI HS HL. unfold melt_partition.
  repeat split_test; simpl; rewrite ?HM in *; repeat split;
    try reflexivity; lra.
Qed.

Lemma quiet_isothermal (f : forcing) (w : frame) :
  RefreezeEnergy w == 0 -> vapor_flux (snow w) == 0 ->
  0 <= SnowIce w -> 0 <= surf_water (snow w) -> 0 <= LakeIce w ->
  IceMelt w = 0 ->
  SnowIce (isothermal_branch K f w) == SnowIce w /\
  surf_water (snow (isothermal_branch K f w)) == surf_water (snow w) /\
  LakeIce (isothermal_branch K f w) == LakeIce w /\
  lake (isothermal_branch K f w) = lake w /\
  double_counted_liquid
    (refreeze_or_melt K (delta_t f) (upd_snow (set_surf_temp 0) w)) = 0.
Proof.
  intros HE Hv HS HW HL HI. unfold isothermal_branch. cbv zeta.
  set (w0 := upd_snow (set_surf_temp 0) w).
  assert (E0 : RefreezeEnergy w0 == 0) by exact HE.
  assert (V0 : vapor_flux (snow w0) == 0) by exact Hv.
  assert (S0 : SnowIce w0 = SnowIce w) by reflexivity.
  assert (W0 : surf_water (snow w0) = surf_water (snow w)) by reflexivity.
  assert (L0 : LakeIce w0 = LakeIce w) by reflexivity.
  assert (l0 : lake w0 = lake w) by reflexivity.
  assert (I0 : IceMelt w0 = 0) by exact HI.
  clearbody w0.
  destruct (quiet_refreeze (delta_t f) w0 E0) as (S1 & W1 & M1 & L1 & l1 & V1 & I1);
    [ rewrite W0; exact HW | ].
  set (w1 := refreeze_or_melt K (delta_t f) w0) in *. clearbody w1.
  destruct (quiet_vapor (fracprv f) w1) as (S2 & W2 & L2 & l2 & M2 & I2 & D2);
    [ rewrite V1; exact V0 | rewrite S1, S0; exact HS
    | rewrite W1, W0; exact HW | rewrite L1, L0; exact HL | ].
  set (w2 := vapor_adjust_isothermal (fracprv f) w1) in *. clearbody w2.
  destruct (quiet_melt w2) as (S3 & W3 & L3 & l3);
    [ rewrite M2; exact M1 | rewrite I2, I1; exact I0
    | rewrite S2, S1, S0; exact HS | rewrite L2, L1, L0; exact HL | ].
  repeat split.
  - rewrite S3, S2, S1, S0. reflexivity.
  - rewrite W3, W2, W1, W0. reflexivity.
  - rewrite L3, L2, L1, L0. reflexivity.
  - rewrite l3, l2, l1, l0. reflexivity.
  - exact D2.
Qed.

Lemma finish_hice (w : frame) (iswq iice rain snowf q dcc : Q)
    (c : eb_cells) (ro : Q) :
  let r := finish K w iswq iice rain snowf q dcc c ro in
  (LakeIce w * RHO_W K / RHOICE K <= 0 -> hice (r_lake r) = 0) /\
  (0 < LakeIce w * RHO_W K / RHOICE K ->
     hice (r_lake r) = LakeIce w * RHO_W K / RHOICE K).
Proof.
  cbv zeta. unfold finish.
  destruct (surf_water (snow w) >? LIQUID_WATER_CAPACITY K * SnowIce w);
    cbv zeta; split_test; simpl in *; split; intros; try reflexivity;
    exfalso; lra.
Qed.

(** X9: a step in which nothing happens changes nothing.  On valid input
    with no rain and no snow, when the energy balance at 0 C reports zero
    net energy, zero refreeze energy and zero vapor flux, and the surface
    liquid is within the holding capacity, the call returns the snow water
    equivalent, surface liquid, lake ice thickness and lake volume it was
    given, delivers no melt, and its mass-balance residual is zero. *)
Theorem X9_quiet_step (f : forcing) (s : snow_data_struct)
    (l : lake_var_struct) :
  valid_consts K -> valid_input f s l ->
  rainfall f == 0 -> snowfall f == 0 ->
  Qnet0 (entry_of f s l) == 0 ->
  c_RefreezeEnergy (cells0 (entry_of f s l)) == 0 ->
  c_vapor_flux (cells0 (entry_of f s l)) == 0 ->
  surf_water s <= LIQUID_WATER_CAPACITY K * (swq s - surf_water s) ->
  exists r,
    step f s l = Returned r /\
    swq (r_snow r) == swq s /\
    surf_water (r_snow r) == surf_water s /\
    hice (r_lake r) == hice l /\
    volume (r_lake r) = volume l /\
    melt r == 0 /\
    mass_error (r_snow r) == 0 /\
    surf_temp (r_snow r) = 0.
Proof.
  intros HK Hin Hrain Hsnow Hz HE Hv Hcap.
  pose proof HK as (Hi & Hw & _ & _ & Hc).
  pose proof Hin as (_ & _ & _ & H0 & H1 & Hh).
  destruct (entry_fields f s l) as (FS & FW & FL & Fl & _ & Fv & FE & _).
  destruct (store_entry K icerad IceEnergyBalance f s l) as [_ Fi].
  destruct (nonneg_entry K icerad IceEnergyBalance f s l HK Hin)
    as (NS & NW & NL).
  destruct (quiet_isothermal f (frame0 (entry_of f s l)))
    as (QS & QW & QL & Ql & QD);
    [ rewrite FE; exact HE | rewrite Fv; exact Hv
    | exact NS | exact NW | exact NL | exact Fi | ].
  assert (ES : SnowIce (frame0 (entry_of f s l)) == swq s - surf_water s)
    by (rewrite FS, Hsnow; unfold Qdiv; ring).
  assert (EW : surf_water (snow (frame0 (entry_of f s l))) == surf_water s)
    by (rewrite FW, Hrain; unfold Qdiv; ring).
  rewrite ES in QS. rewrite EW in QW. rewrite FL in QL. rewrite Fl in Ql.
  pose proof (run_isothermal K icerad IceEnergyBalance root_brent f s l Hz)
    as Hrun.
  pose proof (isothermal_surf_temp f (frame0 (entry_of f s l))) as Ht.
  set (wf := isothermal_branch K f (frame0 (entry_of f s l))) in *.
  exists (finish K wf (InitialSwq (entry_of f s l))
            (InitialIce (entry_of f s l)) (RainFall (entry_of f s l))
            (SnowFall (entry_of f s l)) (Qnet0 (entry_of f s l))
            (deltaCC (entry_of f s l)) (cells0 (entry_of f s l))
            (c_RefreezeEnergy (cells0 (entry_of f s l)))).
  assert (Hstep : step f s l
                  = Returned
                      (finish K wf (InitialSwq (entry_of f s l))
                         (InitialIce (entry_of f s l)) (RainFall (entry_of f s l))
                         (SnowFall (entry_of f s l)) (Qnet0 (entry_of f s l))
                         (deltaCC (entry_of f s l)) (cells0 (entry_of f s l))
                         (c_RefreezeEnergy (cells0 (entry_of f s l)))))
    by (unfold ice_melt; rewrite Hrun; reflexivity).
  pose proof (mass_error_isothermal K icerad IceEnergyBalance root_brent
                f s l _ Hz Hstep) as Hmass.
  rewrite QD in Hmass.
  destruct (finish_cap K wf (InitialSwq (entry_of f s l))
              (InitialIce (entry_of f s l)) (RainFall (entry_of f s l))
              (SnowFall (entry_of f s l)) (Qnet0 (entry_of f s l))
              (deltaCC (entry_of f s l)) (cells0 (entry_of f s l))
              (c_RefreezeEnergy (cells0 (entry_of f s l))))
    as (_ & Hswq & _ & Hkeep).
  destruct (finish_hice wf (InitialSwq (entry_of f s l))
              (InitialIce (entry_of f s l)) (RainFall (entry_of f s l))
              (SnowFall (entry_of f s l)) (Qnet0 (entry_of f s l))
              (deltaCC (entry_of f s l)) (cells0 (entry_of f s l))
              (c_RefreezeEnergy (cells0 (entry_of f s l))))
    as (Hzero & Hpos).
  destruct (blowing_finish wf (InitialSwq (entry_of f s l))
              (InitialIce (entry_of f s l)) (RainFall (entry_of f s l))
              (SnowFall (entry_of f s l)) (Qnet0 (entry_of f s l))
              (deltaCC (entry_of f s l)) (cells0 (entry_of f s l))
              (c_RefreezeEnergy (cells0 (entry_of f s l))))
    as (_ & _ & _ & Htemp & Hvol).
  set (r := finish K wf _ _ _ _ _ _ _ _) in *. clearbody r.
  assert (Hcapf : surf_water (snow wf) <= LIQUID_WATER_CAPACITY K * SnowIce wf)
    by (rewrite QW, QS; exact Hcap).
  destruct (Hkeep Hcapf) as [Hmelt Hsw].
  assert (Hth : LakeIce wf * RHO_W K / RHOICE K == hice l)
    by (rewrite QL; field; split; lra).
  split; [ exact Hstep | ].
  repeat split.
  - rewrite Hswq, Hsw, QS, QW. ring.
  - rewrite Hsw. exact QW.
  - destruct (Qlt_le_dec 0 (LakeIce wf * RHO_W K / RHOICE K)) as [Hp | Hp].
    + rewrite (Hpos Hp). exact Hth.
    + rewrite (Hzero Hp). lra.
  - rewrite Hvol, Ql. reflexivity.
  - rewrite Hmelt. ring.
  - rewrite Hmass. ring.
  - rewrite Htemp. exact Ht.
Qed.

(** ** The mass-balance residual of every return *)

Lemma clamp_changes_flux (fp : Q) (w : frame) :
  (vapor_flux (snow (vapor_adjust_isothermal fp w)) == vapor_flux (snow w) ->
     double_counted_liquid w = 0) /\
  (~ vapor_flux (snow (vapor_adjust_isothermal fp w)) == vapor_flux (snow w) ->
     double_counted_liquid w = surf_water (snow w)).
Proof.
  unfold vapor_adjust_isothermal, double_counted_liquid.
  repeat split_test; simpl; split; intro Hflux; try reflexivity; exfalso;
    first [ lra | apply Hflux; reflexivity ].
Qed.

Lemma no_flux_uncounted_on_snow (w : frame) :
  (0 < SnowIce w -> uncounted_flux w = 0) /\
  (SnowIce w == 0 -> 0 <= LakeIce w -> 0 <= vapor_flux (snow w) ->
     uncounted_flux w = vapor_flux (snow w)).
Proof.
  unfold uncounted_flux.
  repeat split_test; split; intros; try reflexivity; exfalso; lra.
Qed.

(** X10: the mass-balance residual that a returning call stores.  After
    the isothermal branch it is zero when the call reports the vapor flux
    that the energy balance computed; when the reported flux differs (the
    clamp of lines 245-255 has acted) it is minus the surface liquid held
    at line 244, which the clamp counts as sublimated and leaves in place.
    After the subfreezing branch it is zero when there is snow ice at line
    358; on bare lake ice a vapor flux that is not negative goes to the lake
    volume (lines 378-379) and is the residual. *)
Theorem X10_mass_balance_residual (f : forcing) (s : snow_data_struct)
    (l : lake_var_struct) (r : ice_melt_result) :
  step f s l = Returned r ->
  (Qnet0 (entry_of f s l) == 0 ->
     (vapor_flux (r_snow r) == - c_vapor_flux (cells0 (entry_of f s l)) ->
        mass_error (r_snow r) == 0) /\
     (~ vapor_flux (r_snow r) == - c_vapor_flux (cells0 (entry_of f s l)) ->
        mass_error (r_snow r)
        == - surf_water (snow (at_freezing f (entry_of f s l))))) /\
  (~ Qnet0 (entry_of f s l) == 0 ->
     (0 < SnowIce (below_freezing f (entry_of f s l)) ->
        mass_error (r_snow r) == 0) /\
     (SnowIce (below_freezing f (entry_of f s l)) == 0 ->
      0 <= LakeIce (below_freezing f (entry_of f s l)) ->
      0 <= vapor_flux (snow (below_freezing f (entry_of f s l))) ->
        mass_error (r_snow r)
        == vapor_flux (snow (below_freezing f (entry_of f s l))))).
Proof.
  intro H. split; intro Hz.
  - pose proof (mass_error_isothermal K icerad IceEnergyBalance root_brent
                  f s l r Hz H) as Hm.
    assert (Hv : vapor_flux (r_snow r)
                 = vapor_flux
                     (snow (vapor_adjust_isothermal (fracprv f)
                              (at_freezing f (entry_of f s l)))) * -1).
    { revert H. unfold ice_melt.
      rewrite (run_isothermal K icerad IceEnergyBalance root_brent f s l Hz).
      cbn [result]. unfold returned. intro H. injection H as <-.
      rewrite (proj1 (proj2 (proj2 (blowing_finish _ _ _ _ _ _ _ _ _)))).
      unfold isothermal_branch. cbv zeta.
      rewrite (proj2 (store_melt_partition _)). reflexivity. }
    assert (Hc : vapor_flux (snow (at_freezing f (entry_of f s l)))
                 = c_vapor_flux (cells0 (entry_of f s l))).
    { rewrite (proj2 (proj2 (store_refreeze_or_melt K (delta_t f) _))).
      destruct (entry_fields f s l) as (_ & _ & _ & _ & _ & Fv & _).
      simpl. exact Fv. }
    destruct (clamp_changes_flux (fracprv f) (at_freezing f (entry_of f s l)))
      as [Hsame Hdiff].
    rewrite Hv. rewrite <- Hc. rewrite Hm.
    set (w1 := at_freezing f (entry_of f s l)) in *. clearbody w1.
    set (v := vapor_flux (snow (vapor_adjust_isothermal (fracprv f) w1))) in *.
    clearbody v.
    split; intro Hr.
    + rewrite Hsame; [ reflexivity | lra ].
    + rewrite Hdiff; [ reflexivity | ]. intro E. apply Hr. rewrite E. ring.
  - pose proof (mass_error_subfreezing K icerad IceEnergyBalance root_brent
                  f s l r Hz H) as Hm.
    destruct (no_flux_uncounted_on_snow (below_freezing f (entry_of f s l)))
      as [Hsnow Hbare].
    rewrite Hm.
    set (w1 := below_freezing f (entry_of f s l)) in *. clearbody w1.
    split.
    + intro Hp. rewrite (Hsnow Hp). reflexivity.
    + intros H0 HL Hv. rewrite (Hbare H0 HL Hv). reflexivity.
Qed.

(** ** Signs of the outputs *)

Lemma nonneg_isothermal_branch (f : forcing) (w : frame) :
  valid_consts K -> (0 < delta_t f)%Z ->
  0 <= SnowIce w -> 0 <= surf_water (snow w) -> 0 <= LakeIce w ->
  - vapor_flux (snow w) <= SnowIce w + surf_water (snow w) ->
  0 <= SnowIce (isothermal_branch K f w) /\
  0 <= surf_water (snow (isothermal_branch K f w)).
Proof.
  intros HK Hdt HS HW HL Hv. unfold isothermal_branch. cbv zeta.
  set (w0 := upd_snow (set_surf_temp 0) w).
  assert (S0 : 0 <= SnowIce w0) by exact HS.
  assert (W0 : 0 <= surf_water (snow w0)) by exact HW.
  assert (T0 : store w0 = store w) by reflexivity.
  assert (L0 : LakeIce w0 = LakeIce w) by reflexivity.
  assert (V0 : vapor_flux (snow w0) = vapor_flux (snow w)) by reflexivity.
  clearbody w0.
  destruct (nonneg_refreeze_or_melt K (delta_t f) w0 HK Hdt S0 W0)
    as (S1 & W1 & M1).
  destruct (store_refreeze_or_melt K (delta_t f) w0) as (T1 & _ & V1).
  destruct (lake_untouched_by_refreeze (delta_t f) w0) as [_ L1].
  set (w1 := refreeze_or_melt K (delta_t f) w0) in *. clearbody w1.
  assert (Hb : ~ flux_equals_store w1).
  { unfold flux_equals_store. intros [_ Hlt].
    unfold store in T1, T0. rewrite T0 in T1. rewrite V1, V0 in Hlt.
    rewrite L1, L0 in T1. lra. }
  destruct (nonneg_vapor_adjust_isothermal (fracprv f) w1 S1 W1 Hb)
    as (S2 & W2 & M2).
  apply nonneg_melt_partition; try assumption. rewrite M2. exact M1.
Qed.

Lemma nonneg_subfreezing_phases (dt : Z) (fp : Q) (w : frame) :
  0 <= SnowIce w -> 0 <= surf_water (snow w) ->
  - vapor_flux (snow w) <= SnowIce w + surf_water (snow w) ->
  0 <= SnowIce (vapor_adjust_subfreezing fp (freeze_surface_water K dt w)) /\
  surf_water (snow (vapor_adjust_subfreezing fp (freeze_surface_water K dt w)))
  = 0.
Proof.
  intros HS HW Hv.
  assert (S1 : SnowIce (freeze_surface_water K dt w)
               = SnowIce w + surf_water (snow w)) by reflexivity.
  assert (W1 : surf_water (snow (freeze_surface_water K dt w)) = 0)
    by reflexivity.
  assert (V1 : vapor_flux (snow (freeze_surface_water K dt w))
               = vapor_flux (snow w)) by reflexivity.
  set (w1 := freeze_surface_water K dt w) in *. clearbody w1.
  apply nonneg_vapor_adjust_subfreezing; [ rewrite S1; lra | exact W1 | ].
  unfold flux_equals_store. intros [_ Hlt]. rewrite S1, W1, V1 in Hlt. lra.
Qed.

(** X11: on valid input, when the vapor flux that the energy balance of the
    executed branch computed takes no more than the snow pack holds (prior
    snow water equivalent plus the rain and snow of the step; so for every
    deposition), a returning call leaves a snow water equivalent, a surface
    liquid, a melt output and a lake ice thickness that are not negative. *)
Theorem X11_outputs_nonneg_when_flux_is_covered (f : forcing)
    (s : snow_data_struct) (l : lake_var_struct) (r : ice_melt_result) :
  valid_consts K -> valid_input f s l ->
  step f s l = Returned r ->
  (Qnet0 (entry_of f s l) == 0 ->
     - c_vapor_flux (cells0 (entry_of f s l))
     <= swq s + rainfall f / 1000 + snowfall f / 1000) ->
  (~ Qnet0 (entry_of f s l) == 0 ->
     - c_vapor_flux
         (snd (solved_energy K IceEnergyBalance root_brent f (entry_of f s l)))
     <= swq s + rainfall f / 1000 + snowfall f / 1000) ->
  0 <= swq (r_snow r) /\ 0 <= surf_water (r_snow r) /\ 0 <= melt r /\
  0 <= hice (r_lake r).
Proof.
  intros HK Hin H Hiso Hsub.
  destruct (nonneg_entry K icerad IceEnergyBalance f s l HK Hin)
    as (NS & NW & NL).
  destruct (entry_fields f s l) as (FS & FW & _ & _ & _ & Fv & _).
  assert (Hsum : SnowIce (frame0 (entry_of f s l))
                 + surf_water (snow (frame0 (entry_of f s l)))
                 == swq s + rainfall f / 1000 + snowfall f / 1000)
    by (rewrite FS, FW; ring).
  assert (Hsw : exists w q c,
            r = finish K w (InitialSwq (entry_of f s l))
                  (InitialIce (entry_of f s l)) (RainFall (entry_of f s l))
                  (SnowFall (entry_of f s l)) q (deltaCC (entry_of f s l)) c
                  (c_RefreezeEnergy c) /\
            0 <= SnowIce w /\ 0 <= surf_water (snow w)).
  { revert H. unfold ice_melt.
    destruct (Qeq_dec (Qnet0 (entry_of f s l)) 0) as [Hz | Hz].
    - rewrite (run_isothermal K icerad IceEnergyBalance root_brent f s l Hz).
      cbn [result]. unfold returned. intro H. injection H as <-.
      do 3 eexists. split; [ reflexivity | ].
      apply nonneg_isothermal_branch; try assumption; [ apply Hin | ].
      rewrite Fv, Hsum. exact (Hiso Hz).
    - destruct (Qlt_le_dec (-9998) (root (solver_of f (entry_of f s l))))
        as [Hr | Hr].
      + rewrite (run_subfreezing K icerad IceEnergyBalance root_brent
                   f s l Hz Hr).
        cbn [result]. unfold returned. intro H. injection H as <-.
        do 3 eexists. split; [ reflexivity | ].
        unfold subfreezing_branch. cbv zeta.
        destruct (nonneg_subfreezing_phases (delta_t f) (fracprv f)
                    (solved_of f (entry_of f s l))) as [A B].
        * exact NS.
        * exact NW.
        * change (- c_vapor_flux
                      (snd (solved_energy K IceEnergyBalance root_brent f
                              (entry_of f s l)))
                  <= SnowIce (frame0 (entry_of f s l))
                     + surf_water (snow (frame0 (entry_of f s l)))).
          rewrite Hsum. exact (Hsub Hz).
        * split; [ exact A | rewrite B; lra ].
      + rewrite (run_exit K icerad IceEnergyBalance root_brent f s l Hz Hr).
        cbn [result]. discriminate. }
  destruct Hsw as (w & q & c & -> & H1 & H2).
  destruct (nonneg_finish K w (InitialSwq (entry_of f s l))
              (InitialIce (entry_of f s l)) (RainFall (entry_of f s l))
              (SnowFall (entry_of f s l)) q (deltaCC (entry_of f s l)) c
              (c_RefreezeEnergy c) HK H1 H2) as (H3 & H4 & H5).
  repeat split; try assumption. apply hice_nonneg.
Qed.

(** ** The phases of the two branches within the step *)


Lemma snowmelt_vapor_adjust_isothermal (fp : Q) (w : frame) :
  SnowMelt (vapor_adjust_isothermal fp w) = SnowMelt w.
Proof. unfold vapor_adjust_isothermal. repeat split_test; reflexivity. Qed.



(** What a call returns, in terms of the locals its branch ends with. *)
Lemma isothermal_return (f : forcing) (s : snow_data_struct)
    (l : lake_var_struct) :
  Qnet0 (entry_of f s l) == 0 ->
  step f s l
  = Returned
      (finish K (isothermal_branch K f (frame0 (entry_of f s l)))
         (InitialSwq (entry_of f s l)) (InitialIce (entry_of f s l))
         (RainFall (entry_of f s l)) (SnowFall (entry_of f s l))
         (Qnet0 (entry_of f s l)) (deltaCC (entry_of f s l))
         (cells0 (entry_of f s l))
         (c_RefreezeEnergy (cells0 (entry_of f s l)))) /\
  branch_frame (run_of f s l)
  = Some (isothermal_branch K f (frame0 (entry_of f s l))).
Proof.
  intro Hz. unfold ice_melt.
  rewrite (run_isothermal K icerad IceEnergyBalance root_brent f s l Hz).
  split; reflexivity.
Qed.



(** C5: in every call that takes the isothermal branch, the snowmelt that
    lines 220-241 computed is set against the snow ice and the lake ice
    that the vapor adjustment left, snow ice first.  Melt below the snow
    ice lowers the snow ice and raises the surface liquid by the melt.
    Melt from the snow ice up to (not including) snow ice plus lake ice
    zeroes the snow ice, lowers the lake ice by the remainder, records that
    remainder as ice melt and raises the surface liquid by the former snow
    ice.  Melt at or above the total ice is clamped to the total, zeroes
    both reservoirs and records the whole lake ice as ice melt.  The locals
    so partitioned are those the branch ends with, and the call returns
    what lines 384-437 make of them. *)
Theorem C5_melt_partition (f : forcing) (s : snow_data_struct)
    (l : lake_var_struct) :
  Qnet0 (entry_of f s l) == 0 ->
  let w := vapor_adjust_isothermal (fracprv f) (at_freezing f (entry_of f s l)) in
  let w' := melt_partition w in
  (exists r,
     step f s l = Returned r /\
     branch_frame (run_of f s l) = Some w' /\
     r = finish K w' (InitialSwq (entry_of f s l)) (InitialIce (entry_of f s l))
           (RainFall (entry_of f s l)) (SnowFall (entry_of f s l))
           (Qnet0 (entry_of f s l)) (deltaCC (entry_of f s l))
           (cells0 (entry_of f s l))
           (c_RefreezeEnergy (cells0 (entry_of f s l))) /\
     swq (r_snow r) = SnowIce w' + surf_water (r_snow r) /\
     (0 < hice (r_lake r) -> hice (r_lake r) = LakeIce w' * RHO_W K / RHOICE K) /\
     (LakeIce w' * RHO_W K / RHOICE K <= 0 -> hice (r_lake r) = 0)) /\
  SnowMelt w = SnowMelt (at_freezing f (entry_of f s l)) /\
  IceMelt w = 0 /\
  (SnowMelt w < SnowIce w ->
     SnowIce w' = SnowIce w - SnowMelt w /\
     surf_water (snow w') = surf_water (snow w) + SnowMelt w /\
     LakeIce w' = LakeIce w /\ IceMelt w' = IceMelt w /\
     SnowMelt w' = SnowMelt w) /\
  (SnowIce w <= SnowMelt w -> SnowMelt w < SnowIce w + LakeIce w ->
     SnowIce w' = 0 /\
     LakeIce w' = LakeIce w - (SnowMelt w - SnowIce w) /\
     IceMelt w' = SnowMelt w - SnowIce w /\
     surf_water (snow w') = surf_water (snow w) + SnowIce w /\
     SnowMelt w' = SnowMelt w) /\
  (SnowIce w <= SnowMelt w -> SnowIce w + LakeIce w <= SnowMelt w ->
     SnowMelt w' = SnowIce w + LakeIce w /\
     SnowIce w' = 0 /\ LakeIce w' = 0 /\
     IceMelt w' = LakeIce w /\
     surf_water (snow w') = surf_water (snow w) + SnowIce w).
Proof.
  intro Hz. cbv zeta.
  destruct (isothermal_return f s l Hz) as [Hstep Hframe].
  assert (Hbranch : forall w0,
            isothermal_branch K f w0
            = melt_partition
                (vapor_adjust_isothermal (fracprv f)
                   (refreeze_or_melt K (delta_t f)
                      (upd_snow (set_surf_temp 0) w0))))
    by (intro; reflexivity).
  rewrite Hbranch in Hstep, Hframe.
  split; [ | split; [ | split ] ].
  - eexists. split; [ exact Hstep | ]. split; [ exact Hframe | ].
    split; [ reflexivity | ].
    destruct (finish_cap K
                (melt_partition
                   (vapor_adjust_isothermal (fracprv f)
                      (at_freezing f (entry_of f s l))))
                (InitialSwq (entry_of f s l)) (InitialIce (entry_of f s l))
                (RainFall (entry_of f s l)) (SnowFall (entry_of f s l))
                (Qnet0 (entry_of f s l)) (deltaCC (entry_of f s l))
                (cells0 (entry_of f s l))
                (c_RefreezeEnergy (cells0 (entry_of f s l))))
      as (_ & Hswq & _).
    destruct (finish_hice
                (melt_partition
                   (vapor_adjust_isothermal (fracprv f)
                      (at_freezing f (entry_of f s l))))
                (InitialSwq (entry_of f s l)) (InitialIce (entry_of f s l))
                (RainFall (entry_of f s l)) (SnowFall (entry_of f s l))
                (Qnet0 (entry_of f s l)) (deltaCC (entry_of f s l))
                (cells0 (entry_of f s l))
                (c_RefreezeEnergy (cells0 (entry_of f s l))))
      as (Hzero & Hpos).
    destruct (finish_lake_and_melt
                (melt_partition
                   (vapor_adjust_isothermal (fracprv f)
                      (at_freezing f (entry_of f s l))))
                (InitialSwq (entry_of f s l)) (InitialIce (entry_of f s l))
                (RainFall (entry_of f s l)) (SnowFall (entry_of f s l))
                (Qnet0 (entry_of f s l)) (deltaCC (entry_of f s l))
                (cells0 (entry_of f s l))
                (c_RefreezeEnergy (cells0 (entry_of f s l))))
      as (_ & _ & _ & Hthick).
    split; [ exact Hswq | ].
    split; [ intro Hp; exact (proj2 (Hthick Hp)) | exact Hzero ].
  - apply snowmelt_vapor_adjust_isothermal.
  - rewrite (proj2 (store_vapor_adjust_isothermal (fracprv f) _)).
    rewrite (proj1 (proj2 (store_refreeze_or_melt K (delta_t f) _))).
    exact (proj2 (store_entry K icerad IceEnergyBalance f s l)).
  - exact (melt_partition_cases
             (vapor_adjust_isothermal (fracprv f)
                (at_freezing f (entry_of f s l)))).
Qed.


End StepAsAWhole.

(** * The further properties on concrete inputs *)

(** A subfreezing call: 0.01 m of snow on 1 m of lake ice, the solver
    returns -1 C, the vapor flux is -0.001 m. *)
Local Abbreviation cold_step :=
  (step_with (-1) 0 (- (1 # 1000)) (-1) calm (pack (1 # 100) 0) (lake_with_ice 1)).
Local Abbreviation cold_result :=
  (the_result (pack (1 # 100) 0) (lake_with_ice 1) cold_step).

Ltac at_cold_step X :=
  apply (X consts icerad (energy (-1) 0 (- (1 # 1000))) (brent (-1))
           calm (pack (1 # 100) 0) (lake_with_ice 1));
  by_evaluation.

Lemma X1_ice_cover_and_melt_on_return_witness :
  0 <= hice (r_lake cold_result) /\
  0 <= melt cold_result /\
  (hice (r_lake cold_result) == 0 -> fraci (r_lake cold_result) = 0) /\
  (0 < hice (r_lake cold_result) ->
     fraci (r_lake cold_result) = fraci (lake_with_ice 1)).
Proof. at_cold_step X1_ice_cover_and_melt_on_return. Defined.

Lemma X2_blowing_flux_is_zero_witness :
  blowing_flux (r_snow cold_result) == 0.
Proof.
  refine (proj1 (X2_blowing_flux_is_zero consts icerad
                   (energy (-1) 0 (- (1 # 1000))) (brent (-1)) calm
                   (pack (1 # 100) 0) (lake_with_ice 1) cold_result _ _ _));
    first [ by_evaluation | repeat split; by_evaluation ].
Defined.

Lemma X3_reported_vapor_flux_within_store_witness :
  vapor_flux (r_snow cold_result)
  <= swq (pack (1 # 100) 0)
     + hice (lake_with_ice 1) * RHOICE consts / RHO_W consts
     + rainfall calm / 1000 + snowfall calm / 1000.
Proof. at_cold_step X3_reported_vapor_flux_within_store. Defined.

Lemma X4_surface_temperature_on_return_witness :
  (Qnet0 (entry_state consts icerad (energy (-1) 0 (- (1 # 1000))) calm
                      (pack (1 # 100) 0) (lake_with_ice 1)) == 0 /\
   surf_temp (r_snow cold_result) = 0 /\ save_Qnet cold_result == 0) \/
  (~ Qnet0 (entry_state consts icerad (energy (-1) 0 (- (1 # 1000))) calm
                        (pack (1 # 100) 0) (lake_with_ice 1)) == 0 /\
   surf_temp (r_snow cold_result)
   = root (solver_call consts (energy (-1) 0 (- (1 # 1000))) (brent (-1)) calm
             (entry_state consts icerad (energy (-1) 0 (- (1 # 1000))) calm
                          (pack (1 # 100) 0) (lake_with_ice 1))) /\
   -9998 < surf_temp (r_snow cold_result)).
Proof. at_cold_step X4_surface_temperature_on_return. Defined.

(** The cold step takes 0.001 m from the snow ice and leaves the lake ice
    and the lake volume alone. *)
Lemma X5_lake_volume_on_return_witness :
  volume (r_lake cold_result)
  == volume (lake_with_ice 1)
     + surface0 (lake_with_ice 1) * fracprv calm
       * (LakeIce (subfreezing_branch consts (energy (-1) 0 (- (1 # 1000)))
                     (brent (-1)) calm
                     (entry_state consts icerad (energy (-1) 0 (- (1 # 1000)))
                                  calm (pack (1 # 100) 0) (lake_with_ice 1)))
          - hice (lake_with_ice 1) * RHOICE consts / RHO_W consts
          + uncounted_flux
              (freeze_surface_water consts (delta_t calm)
                 (solved_frame consts (energy (-1) 0 (- (1 # 1000))) (brent (-1))
                    calm
                    (entry_state consts icerad (energy (-1) 0 (- (1 # 1000)))
                                 calm (pack (1 # 100) 0) (lake_with_ice 1))))).
Proof.
  refine (proj2 (X5_lake_volume_on_return consts icerad
                   (energy (-1) 0 (- (1 # 1000))) (brent (-1)) calm
                   (pack (1 # 100) 0) (lake_with_ice 1) cold_result _) _);
    by_evaluation.
Defined.

(** Refreeze energy of 1000 W/m2 for one hour against 0.005 m of surface
    liquid: the water is capped; and a melt energy of -100 W/m2. *)
Lemma X6_refreeze_energy_matches_water_witness :
  RefrozenWater
    (refreeze_or_melt consts 1
       (with_RefreezeEnergy 1000
          (locals (pack (1 # 100) (5 # 1000)) (lake_with_ice 1) (5 # 1000) 0 0)))
  <= surf_water (pack (1 # 100) (5 # 1000)) /\
  0 < SnowMelt
        (refreeze_or_melt consts 1
           (with_RefreezeEnergy (-100)
              (locals (pack (1 # 100) (5 # 1000)) (lake_with_ice 1)
                      (5 # 1000) 0 0))).
Proof.
  split.
  - refine (proj1 (proj2 (proj1 (X6_refreeze_energy_matches_water consts 1
              (with_RefreezeEnergy 1000
                 (locals (pack (1 # 100) (5 # 1000)) (lake_with_ice 1)
                         (5 # 1000) 0 0)) _ _) _)));
      first [ by_evaluation | repeat split; by_evaluation ].
  - refine (proj1 (proj2 (X6_refreeze_energy_matches_water consts 1
              (with_RefreezeEnergy (-100)
                 (locals (pack (1 # 100) (5 # 1000)) (lake_with_ice 1)
                         (5 # 1000) 0 0)) _ _) _));
      first [ by_evaluation | repeat split; by_evaluation ].
Defined.

(** X7 on its cases: a flux of -1 m against 0.06 m in store; snow ice
    0.01 m, lake ice 0.05 m and a flux of -0.03 m; a flux of -0.004 m. *)
Lemma X7_vapor_adjust_subfreezing_witness :
  LakeIce (vapor_adjust_subfreezing 1
             (locals (set_vapor_flux (-1) (pack (1 # 100) 0))
                     (lake_with_ice 1) (1 # 100) (5 # 100) 0)) = 0 /\
  LakeIce (vapor_adjust_subfreezing 1
             (locals (set_vapor_flux (- (3 # 100)) (pack (1 # 100) 0))
                     (lake_with_ice 1) (1 # 100) (5 # 100) 0))
    = (5 # 100) + (- (3 # 100) + (1 # 100)) /\
  LakeIce (vapor_adjust_subfreezing 1
             (locals (set_vapor_flux (- (4 # 1000)) (pack (1 # 100) 0))
                     (lake_with_ice 1) (1 # 100) (5 # 100) 0))
    = 5 # 100.
Proof.
  split; [ | split ].
  - apply (proj1 (X7_vapor_adjust_subfreezing 1
             (locals (set_vapor_flux (-1) (pack (1 # 100) 0))
                     (lake_with_ice 1) (1 # 100) (5 # 100) 0))).
    by_evaluation.
  - apply (proj1 (proj2 (X7_vapor_adjust_subfreezing 1
             (locals (set_vapor_flux (- (3 # 100)) (pack (1 # 100) 0))
                     (lake_with_ice 1) (1 # 100) (5 # 100) 0))));
      by_evaluation.
  - refine (proj1 (proj2 (proj2 (X7_vapor_adjust_subfreezing 1
             (locals (set_vapor_flux (- (4 # 1000)) (pack (1 # 100) 0))
                     (lake_with_ice 1) (1 # 100) (5 # 100) 0))) _ _));
      [ by_evaluation | left; by_evaluation ].
Defined.

(** A melt energy of -1e6 W/m2 for one hour melts 10.8 m: the 0.002 m of
    snow ice and the 0.01 m of lake ice are gone. *)
Lemma X8_melt_through_witness :
  exists r,
    ice_melt consts icerad (energy 0 (-1000000) 0) (brent (-1)) calm
             (pack (2 # 1000) 0) (lake_with_ice (1 # 100)) = Returned r /\
    swq (r_snow r) == 0 /\ hice (r_lake r) == 0 /\ fraci (r_lake r) = 0.
Proof.
  destruct (X8_melt_through consts icerad (energy 0 (-1000000) 0) (brent (-1))
              calm (pack (2 # 1000) 0) (lake_with_ice (1 # 100)))
    as (r & Hr & H1 & _ & H2 & H3 & _); try by_evaluation.
  exists r. repeat split; assumption.
Defined.

(** Nothing happens to 0.02 m of dry snow on 1 m of lake ice. *)
Lemma X9_quiet_step_witness :
  exists r,
    ice_melt consts icerad (energy 0 0 0) (brent (-1)) calm
             (pack (2 # 100) 0) (lake_with_ice 1) = Returned r /\
    swq (r_snow r) == swq (pack (2 # 100) 0) /\
    hice (r_lake r) == hice (lake_with_ice 1) /\
    mass_error (r_snow r) == 0.
Proof.
  destruct (X9_quiet_step consts icerad (energy 0 0 0) (brent (-1))
              calm (pack (2 # 100) 0) (lake_with_ice 1))
    as (r & Hr & H1 & _ & H2 & _ & _ & H3 & _);
    try by_evaluation; try (repeat split; by_evaluation).
  exists r. repeat split; assumption.
Defined.


(** The complete melt-through of the specification: 0.002 m of snow ice,
    0.01 m of lake ice (a thickness of 10/917 m) and a melt energy that
    melts 0.02 m in the hour.  The melt is clamped to 0.012 m, both
    reservoirs end at zero and 0.01 m is recorded as ice melt. *)
Lemma C5_melt_partition_witness :
  exists w r,
    branch_frame (run_with 0 (- (16685 # 9)) 0 (-1) calm (pack (2 # 1000) 0)
                           (lake_with_ice (10 # 917))) = Some w /\
    step_with 0 (- (16685 # 9)) 0 (-1) calm (pack (2 # 1000) 0)
              (lake_with_ice (10 # 917)) = Returned r /\
    SnowIce w = 0 /\ LakeIce w = 0 /\
    SnowMelt w == 12 # 1000 /\ IceMelt w == 1 # 100 /\
    hice (r_lake r) = 0.
Proof.
  pose proof (C5_melt_partition consts icerad
                (energy 0 (- (16685 # 9)) 0) (brent (-1)) calm
                (pack (2 # 1000) 0) (lake_with_ice (10 # 917))) as H.
  cbv zeta in H.
  destruct H as ((r & Hr & Hw & _ & _ & _ & Hzero) & _ & _ & _ & _ & Hthrough);
    [ by_evaluation | ].
  destruct Hthrough as (Hm & HS & HL & Hi & _); [ by_evaluation | by_evaluation | ].
  eexists. exists r. split; [ exact Hw | ]. split; [ exact Hr | ].
  split; [ exact HS | ]. split; [ exact HL | ].
  rewrite Hm, Hi. split; [ by_evaluation | ]. split; [ by_evaluation | ].
  apply Hzero. rewrite HL. by_evaluation.
Defined.


(** The clamp of the isothermal branch on a pack of 0.02 m, half of it
    liquid: the reported flux is not the computed one, and the residual is
    minus the liquid held at line 244. *)
Lemma X10_mass_balance_residual_witness :
  mass_error
    (r_snow (the_result (pack (2 # 100) (1 # 100)) (lake_with_ice 0)
               (step_with 0 0 (-1) (-1) calm (pack (2 # 100) (1 # 100))
                          (lake_with_ice 0))))
  == - (1 # 100).
Proof.
  pose proof (X10_mass_balance_residual consts icerad (energy 0 0 (-1))
                (brent (-1)) calm (pack (2 # 100) (1 # 100)) (lake_with_ice 0)
                (the_result (pack (2 # 100) (1 # 100)) (lake_with_ice 0)
                   (step_with 0 0 (-1) (-1) calm (pack (2 # 100) (1 # 100))
                              (lake_with_ice 0)))) as H.
  destruct H as [H _]; [ by_evaluation | ].
  destruct H as [_ H]; [ by_evaluation | ].
  rewrite H; [ by_evaluation | by_evaluation ].
Defined.

Lemma X11_outputs_nonneg_when_flux_is_covered_witness :
  0 <= swq (r_snow cold_result) /\ 0 <= surf_water (r_snow cold_result) /\
  0 <= melt cold_result /\ 0 <= hice (r_lake cold_result).
Proof.
  apply (X11_outputs_nonneg_when_flux_is_covered consts icerad
           (energy (-1) 0 (- (1 # 1000))) (brent (-1))
           calm (pack (1 # 100) 0) (lake_with_ice 1));
    first [ by_evaluation | intros _; by_evaluation
          | repeat split; by_evaluation ].
Defined.

Lemma assertion_line_232_witness :
  0 <= surf_water
         (snow (refreeze_or_melt consts 1
                  (with_RefreezeEnergy 1000
                     (locals (pack (1 # 100) (5 # 1000)) (lake_with_ice 1)
                             (5 # 1000) 0 0)))).
Proof.
  apply (assertion_line_232 consts 1). by_evaluation.
Defined.

(** * Properties of initialize_global.c *)

(** ** Arrays and loops *)

Lemma array_upd_length {A : Type} (j : nat) (f : A -> A) (a : list A) :
  List.length (array_upd j f a) = List.length a.
Proof.
  revert j. induction a as [| h t IH]; intro j; [ reflexivity | ].
  destruct j; simpl; [ reflexivity | rewrite IH; reflexivity ].
Qed.

Lemma nth_error_array_upd {A : Type} (j : nat) (f : A -> A) (a : list A)
    (i : nat) :
  nth_error (array_upd j f a) i
  = if Nat.eqb i j then option_map f (nth_error a i) else nth_error a i.
Proof.
  revert j i. induction a as [| h t IH]; intros j i.
  - simpl. destruct i; destruct (Nat.eqb _ j); reflexivity.
  - destruct j, i; simpl; try reflexivity. apply IH.
Qed.

(** A loop that assigns to [a[0]], ..., [a[n-1]]. *)
Lemma nth_error_fill {A : Type} (n : nat) (f : A -> A) (a : list A) (i : nat) :
  nth_error (for_upto n (fun j a => array_upd j f a) a) i
  = if Nat.ltb i n then option_map f (nth_error a i) else nth_error a i.
Proof.
  induction n as [| n IH]; [ reflexivity | ].
  simpl for_upto. rewrite nth_error_array_upd, IH.
  destruct (Nat.eqb_spec i n) as [-> | Hne].
  - rewrite Nat.ltb_irrefl.
    replace (n <? S n)%nat with true by (symmetry; apply Nat.ltb_lt; lia).
    reflexivity.
  - destruct (Nat.ltb_spec i n) as [Hlt | Hge].
    + replace (i <? S n)%nat with true by (symmetry; apply Nat.ltb_lt; lia).
      reflexivity.
    + replace (i <? S n)%nat with false by (symmetry; apply Nat.ltb_ge; lia).
      reflexivity.
Qed.

Lemma fill_length {A : Type} (n : nat) (f : A -> A) (a : list A) :
  List.length (for_upto n (fun j a => array_upd j f a) a) = List.length a.
Proof.
  induction n as [| n IH]; [ reflexivity | ].
  simpl. rewrite array_upd_length. exact IH.
Qed.

(** On an array of [n] elements the loop leaves [n] copies of the value. *)
Lemma fill_all {A : Type} (n : nat) (v : A) (a : list A) :
  List.length a = n ->
  for_upto n (fun j a => array_upd j (fun _ => v) a) a = repeat v n.
Proof.
  intro Hlen. apply nth_error_ext. intro i.
  rewrite nth_error_fill.
  destruct (Nat.ltb_spec i n) as [Hlt | Hge].
  - rewrite nth_error_repeat by exact Hlt.
    destruct (nth_error a i) eqn:E; [ reflexivity | ].
    apply nth_error_None in E. lia.
  - transitivity (@None A).
    + apply nth_error_None. lia.
    + symmetry. apply nth_error_None. rewrite repeat_length. exact Hge.
Qed.

(** A loop over a field of a record is the loop over the field. *)
Lemma for_upto_field {St T : Type} (get : St -> T) (put : T -> St -> St)
    (body : nat -> T -> T) (n : nat) (st : St) :
  (forall t s, get (put t s) = t) ->
  (forall t t' s, put t (put t' s) = put t s) ->
  (forall s, put (get s) s = s) ->
  for_upto n (fun j s => put (body j (get s)) s) st
  = put (for_upto n body (get st)) st.
Proof.
  intros Hgp Hpp Hpg. induction n as [| n IH]; simpl.
  - symmetry. apply Hpg.
  - rewrite IH, Hgp, Hpp. reflexivity.
Qed.

Lemma array_upd_twice {A : Type} (j : nat) (f g : A -> A) (a : list A) :
  array_upd j f (array_upd j g a) = array_upd j (fun x => f (g x)) a.
Proof.
  revert j. induction a as [| h t IH]; intro j; [ reflexivity | ].
  destruct j; simpl; [ reflexivity | rewrite IH; reflexivity ].
Qed.

Lemma array_upd_ext {A : Type} (j : nat) (f g : A -> A) (a : list A) :
  (forall x, f x = g x) -> array_upd j f a = array_upd j g a.
Proof.
  intro Hfg. revert j. induction a as [| h t IH]; intro j; [ reflexivity | ].
  destruct j; simpl; [ rewrite Hfg | rewrite IH ]; reflexivity.
Qed.

Lemma for_upto_ext {St : Type} (n : nat) (b1 b2 : nat -> St -> St) (st : St) :
  (forall j s, b1 j s = b2 j s) -> for_upto n b1 st = for_upto n b2 st.
Proof.
  intro Hb. induction n as [| n IH]; simpl; [ reflexivity | ].
  rewrite IH. apply Hb.
Qed.

Lemma array_upd_id {A : Type} (j : nat) (a : list A) :
  array_upd j (fun x => x) a = a.
Proof.
  revert j. induction a as [| h t IH]; intro j; [ reflexivity | ].
  destruct j; simpl; [ reflexivity | rewrite IH; reflexivity ].
Qed.

(** A loop that assigns to [a[i][0]], ..., [a[i][n-1]] works on row [i]. *)
Lemma for_upto_row {A : Type} (n i : nat) (g : nat -> list A -> list A)
    (a : list (list A)) :
  for_upto n (fun j a => array_upd i (g j) a) a
  = array_upd i (fun row => for_upto n g row) a.
Proof.
  induction n as [| n IH]; simpl.
  - symmetry. apply array_upd_id.
  - rewrite IH, array_upd_twice. reflexivity.
Qed.

Section GlobalDefaults.

Variable H : header.

Local Abbreviation N := (N_FORCING_TYPES H).
Local Abbreviation fresh_type := (mkForceType (FALSE H) 1 1).
Local Abbreviation missing_row :=
  (fun row : list Z => for_upto N (fun j r => array_set j (MISSING H) r) row).

Lemma reset_types_spec (p : param_set_struct) :
  reset_types H p
  = set_TYPE (for_upto N (fun j a => array_upd j (fun _ => fresh_type) a) (TYPE p)) p.
Proof.
  unfold reset_types.
  rewrite (for_upto_ext N _
             (fun j p => set_TYPE (array_upd j (fun _ => fresh_type) (TYPE p)) p)).
  - apply (for_upto_field TYPE set_TYPE
             (fun j a => array_upd j (fun _ => fresh_type) a)).
    + reflexivity.
    + reflexivity.
    + intros []; reflexivity.
  - intros j q. cbv zeta. simpl TYPE.
    rewrite !array_upd_twice. reflexivity.
Qed.

Lemma reset_index_row (i : nat) (p : param_set_struct) :
  for_upto N
    (fun j p =>
       set_FORCE_INDEX (array_upd i (array_set j (MISSING H)) (FORCE_INDEX p)) p)
    p
  = set_FORCE_INDEX (array_upd i missing_row (FORCE_INDEX p)) p.
Proof.
  rewrite (for_upto_field FORCE_INDEX set_FORCE_INDEX
             (fun j a => array_upd i (array_set j (MISSING H)) a)).
  - rewrite for_upto_row. reflexivity.
  - reflexivity.
  - reflexivity.
  - intros []; reflexivity.
Qed.

Lemma reset_files_spec (p : param_set_struct) :
  reset_files H p
  = mkParamSet (TYPE p)
      (array_set 1 (MISSING H) (array_set 0 (MISSING H) (FORCE_DT p)))
      (array_set 1 (MISSING H) (array_set 0 (MISSING H) (N_TYPES p)))
      (array_set 1 (MISSING H) (array_set 0 (MISSING H) (FORCE_FORMAT p)))
      (array_upd 1 missing_row (array_upd 0 missing_row (FORCE_INDEX p))).
Proof.
  unfold reset_files. simpl for_upto. cbv zeta.
  rewrite !reset_index_row. reflexivity.
Qed.

Lemma nth_error_missing_row (row : list Z) (j : nat) :
  nth_error (missing_row row) j
  = if Nat.ltb j N then option_map (fun _ => MISSING H) (nth_error row j)
    else nth_error row j.
Proof. unfold array_set. apply nth_error_fill. Qed.

(** X13: after [initialize_global] every forcing type below
    [N_FORCING_TYPES] is marked as not supplied, with sign 1 and multiplier
    1, whatever it held; the table keeps its length, and the loop touches
    nothing at or beyond [N_FORCING_TYPES]. *)
Theorem X13_forcing_types_reset (g : globals) :
  List.length (TYPE (param_set (initialize_global H g)))
  = List.length (TYPE (param_set g)) /\
  (forall j t,
     (j < N)%nat -> nth_error (TYPE (param_set g)) j = Some t ->
     nth_error (TYPE (param_set (initialize_global H g))) j = Some fresh_type) /\
  (forall j,
     (N <= j)%nat ->
     nth_error (TYPE (param_set (initialize_global H g))) j
     = nth_error (TYPE (param_set g)) j).
Proof.
  unfold initialize_global. cbv zeta. simpl param_set.
  rewrite reset_files_spec, reset_types_spec. simpl TYPE.
  split; [ apply fill_length | ]. split.
  - intros j t Hj Ht. rewrite nth_error_fill, Ht.
    replace (j <? N)%nat with true by (symmetry; apply Nat.ltb_lt; exact Hj).
    reflexivity.
  - intros j Hj. rewrite nth_error_fill.
    replace (j <? N)%nat with false by (symmetry; apply Nat.ltb_ge; exact Hj).
    reflexivity.
Qed.

Lemma nth_error_set_two {A : Type} (v : A) (a : list A) (i : nat) :
  nth_error (array_set 1 v (array_set 0 v a)) i
  = if Nat.ltb i 2 then option_map (fun _ => v) (nth_error a i)
    else nth_error a i.
Proof. apply (nth_error_fill 2 (fun _ => v) a i). Qed.

(** X14: after [initialize_global] the time step, the number of types and
    the format of both forcing files are MISSING, and so is the index of
    every forcing type below [N_FORCING_TYPES] in both files; the tables
    keep their sizes and nothing beyond the second file is touched. *)
Theorem X14_forcing_files_reset (g : globals) :
  (forall i v,
     (i < 2)%nat ->
     (nth_error (FORCE_DT (param_set g)) i = Some v ->
      nth_error (FORCE_DT (param_set (initialize_global H g))) i
      = Some (MISSING H)) /\
     (nth_error (N_TYPES (param_set g)) i = Some v ->
      nth_error (N_TYPES (param_set (initialize_global H g))) i
      = Some (MISSING H)) /\
     (nth_error (FORCE_FORMAT (param_set g)) i = Some v ->
      nth_error (FORCE_FORMAT (param_set (initialize_global H g))) i
      = Some (MISSING H))) /\
  (forall i j row v,
     (i < 2)%nat -> (j < N)%nat ->
     nth_error (FORCE_INDEX (param_set g)) i = Some row ->
     nth_error row j = Some v ->
     exists row',
       nth_error (FORCE_INDEX (param_set (initialize_global H g))) i = Some row' /\
       List.length row' = List.length row /\
       nth_error row' j = Some (MISSING H)) /\
  (forall i,
     (2 <= i)%nat ->
     nth_error (FORCE_INDEX (param_set (initialize_global H g))) i
     = nth_error (FORCE_INDEX (param_set g)) i) /\
  List.length (FORCE_INDEX (param_set (initialize_global H g)))
  = List.length (FORCE_INDEX (param_set g)).
Proof.
  unfold initialize_global. cbv zeta. simpl param_set.
  rewrite reset_files_spec, reset_types_spec.
  simpl FORCE_DT. simpl N_TYPES. simpl FORCE_FORMAT. simpl FORCE_INDEX.
  assert (Hrows : forall i,
            nth_error (array_upd 1 missing_row
                         (array_upd 0 missing_row (FORCE_INDEX (param_set g)))) i
            = if Nat.ltb i 2
              then option_map missing_row (nth_error (FORCE_INDEX (param_set g)) i)
              else nth_error (FORCE_INDEX (param_set g)) i)
    by (intro i; apply (nth_error_fill 2 missing_row)).
  repeat split.
  - intro Hv. rewrite nth_error_set_two, Hv.
    replace (i <? 2)%nat with true by (symmetry; apply Nat.ltb_lt; assumption).
    reflexivity.
  - intro Hv. rewrite nth_error_set_two, Hv.
    replace (i <? 2)%nat with true by (symmetry; apply Nat.ltb_lt; assumption).
    reflexivity.
  - intro Hv. rewrite nth_error_set_two, Hv.
    replace (i <? 2)%nat with true by (symmetry; apply Nat.ltb_lt; assumption).
    reflexivity.
  - intros i j row v Hi Hj Hrow Hv. exists (missing_row row).
    rewrite Hrows, Hrow.
    replace (i <? 2)%nat with true by (symmetry; apply Nat.ltb_lt; assumption).
    split; [ reflexivity | ]. split; [ apply fill_length | ].
    rewrite nth_error_missing_row, Hv.
    replace (j <? N)%nat with true by (symmetry; apply Nat.ltb_lt; assumption).
    reflexivity.
  - intros i Hi. rewrite Hrows.
    replace (i <? 2)%nat with false by (symmetry; apply Nat.ltb_ge; assumption).
    reflexivity.
  - rewrite !array_upd_length. reflexivity.
Qed.

Lemma two_elements {A : Type} (a : list A) :
  List.length a = 2%nat -> exists x y, a = [x; y].
Proof.
  destruct a as [| x [| y [| z t]]]; simpl; intro E; try discriminate E.
  exists x, y. reflexivity.
Qed.

Lemma param_set_declared (g : globals) :
  declared_shape H (param_set g) ->
  param_set (initialize_global H g)
  = mkParamSet (repeat fresh_type N)
               [MISSING H; MISSING H] [MISSING H; MISSING H]
               [MISSING H; MISSING H]
               [repeat (MISSING H) N; repeat (MISSING H) N].
Proof.
  intros (HT & HD & HN & HF & HI & HR).
  unfold initialize_global. cbv zeta. simpl param_set.
  rewrite reset_files_spec, reset_types_spec.
  simpl TYPE. simpl FORCE_DT. simpl N_TYPES. simpl FORCE_FORMAT.
  simpl FORCE_INDEX.
  rewrite (fill_all N fresh_type _ HT).
  destruct (two_elements _ HD) as (d0 & d1 & ->).
  destruct (two_elements _ HN) as (n0 & n1 & ->).
  destruct (two_elements _ HF) as (f0 & f1 & ->).
  destruct (two_elements _ HI) as (r0 & r1 & Hrows).
  rewrite Hrows in HR |- *.
  assert (L0 : List.length r0 = N)
    by (apply (Forall_inv HR)).
  assert (L1 : List.length r1 = N)
    by (apply (Forall_inv (Forall_inv_tail HR))).
  simpl array_set. simpl array_upd. unfold array_set.
  rewrite (fill_all N (MISSING H) r0 L0), (fill_all N (MISSING H) r1 L1).
  reflexivity.
Qed.

(** X15: on structures of the declared sizes [initialize_global] forgets
    the past: two calls leave the same options, forcing tables and (when
    the debugging code is compiled in, or the debug flags agreed before)
    debug flags, whatever the structures held; the tables keep the declared
    sizes, and a second call changes nothing. *)
Theorem X15_defaults_forget_the_past (g1 g2 : globals) :
  declared_shape H (param_set g1) ->
  declared_shape H (param_set g2) ->
  LINK_DEBUG H = true \/ debug g1 = debug g2 ->
  initialize_global H g1 = initialize_global H g2 /\
  declared_shape H (param_set (initialize_global H g1)) /\
  initialize_global H (initialize_global H g1) = initialize_global H g1.
Proof.
  intros S1 S2 Hd.
  assert (Hshape : declared_shape H (param_set (initialize_global H g1))).
  { rewrite (param_set_declared g1 S1). unfold declared_shape. simpl.
    rewrite !repeat_length. repeat split.
    repeat constructor; apply repeat_length. }
  assert (Heq : forall a b,
            declared_shape H (param_set a) -> declared_shape H (param_set b) ->
            LINK_DEBUG H = true \/ debug a = debug b ->
            initialize_global H a = initialize_global H b).
  { intros a b Sa Sb Hab.
    pose proof (param_set_declared a Sa) as Pa.
    pose proof (param_set_declared b Sb) as Pb.
    unfold initialize_global in *. cbv zeta in *. simpl param_set in Pa, Pb.
    rewrite Pa, Pb.
    destruct Hab as [Ht | He]; [ rewrite Ht | rewrite He ]; reflexivity. }
  split; [ apply Heq; assumption | ]. split; [ exact Hshape | ].
  apply Heq; try assumption.
  destruct (LINK_DEBUG H) eqn:E; [ left; reflexivity | right ].
  unfold initialize_global. cbv zeta. rewrite E. reflexivity.
Qed.

End GlobalDefaults.

(** ** File names *)

(** X16: after [initialize_filenames] each of the nine file names is
    "MISSING" and so are both forcing path prefixes, whatever they held;
    the array of prefixes keeps its length, and a second call changes
    nothing. *)
Theorem X16_filenames_missing (n : filenames_struct) :
  init_state (initialize_filenames n) = "MISSING"%string /\
  statefile (initialize_filenames n) = "MISSING"%string /\
  constants (initialize_filenames n) = "MISSING"%string /\
  soil (initialize_filenames n) = "MISSING"%string /\
  veg (initialize_filenames n) = "MISSING"%string /\
  veglib (initialize_filenames n) = "MISSING"%string /\
  snowband (initialize_filenames n) = "MISSING"%string /\
  lakeparam (initialize_filenames n) = "MISSING"%string /\
  result_dir (initialize_filenames n) = "MISSING"%string /\
  List.length (f_path_pfx (initialize_filenames n))
  = List.length (f_path_pfx n) /\
  (forall i old,
     (i < 2)%nat -> nth_error (f_path_pfx n) i = Some old ->
     nth_error (f_path_pfx (initialize_filenames n)) i = Some "MISSING"%string) /\
  (forall i,
     (2 <= i)%nat ->
     nth_error (f_path_pfx (initialize_filenames n)) i
     = nth_error (f_path_pfx n) i) /\
  initialize_filenames (initialize_filenames n) = initialize_filenames n.
Proof.
  assert (Hnth : forall a i,
            nth_error (for_upto 2 (fun i a => array_set i "MISSING"%string a) a) i
            = if Nat.ltb i 2
              then option_map (fun _ => "MISSING"%string) (nth_error a i)
              else nth_error a i)
    by (intros a i; apply (nth_error_fill 2 (fun _ => "MISSING"%string))).
  repeat split.
  - apply (fill_length 2 (fun _ => "MISSING"%string)).
  - intros i old Hi Hold. unfold initialize_filenames. cbn [f_path_pfx].
    rewrite Hnth, Hold.
    replace (i <? 2)%nat with true by (symmetry; apply Nat.ltb_lt; assumption).
    reflexivity.
  - intros i Hi. unfold initialize_filenames. cbn [f_path_pfx].
    rewrite Hnth.
    replace (i <? 2)%nat with false by (symmetry; apply Nat.ltb_ge; assumption).
    reflexivity.
  - unfold initialize_filenames. cbn [f_path_pfx]. f_equal.
    apply nth_error_ext. intro i. rewrite !Hnth.
    destruct (i <? 2)%nat; [ | reflexivity ].
    destruct (nth_error (f_path_pfx n) i); reflexivity.
Qed.

(** ** The defaults on concrete structures *)

Import GlobalScenario.

(** The forcing type that an earlier run had marked as supplied. *)
Lemma X13_forcing_types_reset_witness :
  nth_error (TYPE (param_set (initialize_global sample_header stale_globals))) 1
  = Some (mkForceType (FALSE sample_header) 1 1).
Proof.
  apply (proj1 (proj2 (X13_forcing_types_reset sample_header stale_globals))
           1%nat (mkForceType 1 (-1) (1 # 10))).
  - vm_compute. lia.
  - reflexivity.
Defined.

(** The index of the third forcing type in the second forcing file. *)
Lemma X14_forcing_files_reset_witness :
  exists row',
    nth_error (FORCE_INDEX (param_set (initialize_global sample_header
                                          stale_globals))) 1
    = Some row' /\
    List.length row' = List.length [5; 4; 3]%Z /\
    nth_error row' 2 = Some (MISSING sample_header).
Proof.
  apply (proj1 (proj2 (X14_forcing_files_reset sample_header stale_globals))
           1%nat 2%nat [5; 4; 3]%Z 3%Z).
  - lia.
  - vm_compute. lia.
  - reflexivity.
  - reflexivity.
Defined.

(** Two different pasts, one present. *)
Lemma X15_defaults_forget_the_past_witness :
  initialize_global sample_header stale_globals
  = initialize_global sample_header fresh_globals /\
  declared_shape sample_header
    (param_set (initialize_global sample_header stale_globals)) /\
  initialize_global sample_header
    (initialize_global sample_header stale_globals)
  = initialize_global sample_header stale_globals.
Proof.
  apply (X15_defaults_forget_the_past sample_header stale_globals fresh_globals).
  - unfold declared_shape. simpl. repeat split. repeat constructor.
  - unfold declared_shape. simpl. repeat split. repeat constructor.
  - right. reflexivity.
Defined.

Lemma X16_filenames_missing_witness :
  nth_error (f_path_pfx (initialize_filenames stale_filenames)) 1
  = Some "MISSING"%string.
Proof.
  refine (proj1 (proj2 (proj2 (proj2 (proj2 (proj2 (proj2 (proj2 (proj2 (proj2
            (proj2 (X16_filenames_missing stale_filenames)))))))))))
            1%nat "forcing/b_"%string _ _).
  - lia.
  - reflexivity.
Defined.

(** * The dump of the diagnostic path *)

Section Dump.

Variable K : vic_consts.
Variable icerad : Q -> Q -> Q -> Q * Q * Q.
Variable IceEnergyBalance : Q -> eb_args -> Q * eb_cells.
Variable root_brent :
  Q -> Q -> (Q -> eb_args -> Q * eb_cells) -> eb_args -> brent_result.

(** X17: when the step ends in the diagnostic path, what it writes starts
    with the message of [root_brent], lists the thirty-four values in the
    order of the argument list, and reports what the solver was given: the
    time step, the pressure in Pa, the rain in metres, the snow water
    equivalent with the water equivalent of the lake ice, the surface
    liquid with the rain added, the prior surface temperature, and the
    vapor flux as the solver left it. *)
Theorem X17_dump_reports_solver_arguments (f : forcing) (s : snow_data_struct)
    (l : lake_var_struct) :
  ~ Qnet0 (entry_state K icerad IceEnergyBalance f s l) == 0 ->
  root (solver_call K IceEnergyBalance root_brent f
          (entry_state K icerad IceEnergyBalance f s l)) <= -9998 ->
  exists dump,
    ice_melt K icerad IceEnergyBalance root_brent f s l = Exited dump /\
    nth_error dump 0
    = Some (Text (ErrorString
                    (solver_call K IceEnergyBalance root_brent f
                       (entry_state K icerad IceEnergyBalance f s l)))) /\
    value_names dump
    = ["Dt"; "Ra"; "Z"; "Displacement"; "Z0"; "Wind"; "ShortRad"; "LongRadIn";
       "AirDens"; "Lv"; "Tair"; "Press"; "Vpd"; "EactAir"; "Rain";
       "SweSurfaceLayer"; "SurfaceLiquidWater"; "OldTSurf"; "RefreezeEnergy";
       "vapor_flux"; "blowing_flux"; "surface_flux"; "AdvectedEnergy";
       "DeltaColdContent"; "Tfreeze"; "AvgCond"; "SWconducted"; "SnowDepth";
       "SnowDensity"; "SurfAttenuation"; "GroundFlux"; "LatentHeat";
       "SensibleHeat"; "LWnet"]%string /\
    nth_error dump 2 = Some (NameValue "Dt" (inject_Z (delta_t f))) /\
    nth_error dump 13 = Some (NameValue "Press" (pressure f * 1000)) /\
    nth_error dump 16 = Some (NameValue "Rain" (rainfall f / 1000)) /\
    nth_error dump 17
    = Some (NameValue "SweSurfaceLayer"
              (swq s + hice l * RHOICE K / RHO_W K)) /\
    nth_error dump 18
    = Some (NameValue "SurfaceLiquidWater"
              (surf_water s + rainfall f / 1000)) /\
    nth_error dump 19 = Some (NameValue "OldTSurf" (surf_temp s)) /\
    nth_error dump 21
    = Some (NameValue "vapor_flux"
              (c_vapor_flux
                 (brent_cells
                    (solver_call K IceEnergyBalance root_brent f
                       (entry_state K icerad IceEnergyBalance f s l))))).
Proof.
  intros Hz Hr. unfold ice_melt.
  rewrite (run_exit K icerad IceEnergyBalance root_brent f s l Hz Hr).
  cbn [result]. eexists. split; [ reflexivity | ].
  set (b := solver_call K IceEnergyBalance root_brent f
              (entry_state K icerad IceEnergyBalance f s l)).
  clearbody b.
  unfold ErrorPrintIcePackEnergyBalance, branch_args, energy_args,
    entry_state. cbv zeta.
  destruct (icerad _ _ _) as [[a b'] c].
  destruct (CalcIcePackEnergyBalance _ _ _) as [q cs].
  repeat split.
Qed.

End Dump.

Lemma X17_dump_reports_solver_arguments_witness :
  exists dump,
    ice_melt consts icerad (energy (-1) 0 0) (brent (-9999)) calm
             (pack (1 # 100) 0) (lake_with_ice 1) = Exited dump /\
    nth_error dump 13 = Some (NameValue "Press" (pressure calm * 1000)).
Proof.
  destruct (X17_dump_reports_solver_arguments consts icerad
              (energy (-1) 0 0) (brent (-9999)) calm
              (pack (1 # 100) 0) (lake_with_ice 1))
    as (d & Hd & _ & _ & _ & Hp & _); try by_evaluation.
  exists d. split; assumption.
Defined.
